(** * Salesforce tools of the sim workflow platform: a shallow embedding

    This development models, in Rocq, the parts of the Salesforce
    integration that carry logic:
    - [getInstanceUrl] (tools/salesforce/reports.ts and dashboards.ts, two
      identical copies), which recovers the instance origin from an OAuth
      identity token;
    - the report and dashboard tools' [request.url] and [transformResponse];
    - the block's [tools.config.tool] switch and [tools.config.params]
      parameter cleaner (blocks/salesforce.ts).

    JavaScript values are modelled by [value]; objects keep the ECMAScript
    own-property enumeration order (array-index keys in ascending numeric
    order first, then the other string keys in insertion order). Numbers are
    modelled as integers: no claim below depends on fractional numbers. *)

From Stdlib Require Import String Ascii List ZArith NArith Bool Lia.
From Stdlib Require Import DecimalString Sorting.Sorted.
Import ListNotations.
Open Scope string_scope.
Local Set Warnings "-register-all".

(** ** JavaScript values and ordinary objects *)

(** An ordinary object: [idx_props] holds the properties whose key is an
    array index (kept sorted by numeric value), [str_props] the other string
    keys in insertion order. [obj_entries] enumerates them in the order of
    [Object.entries] / [OrdinaryOwnPropertyKeys]. *)
Record jsobj (A : Type) := mk_jsobj {
  idx_props : list (string * A);
  str_props : list (string * A)
}.
Arguments mk_jsobj {A} _ _.
Arguments idx_props {A} _.
Arguments str_props {A} _.

Inductive value :=
| VUndef
| VNull
| VBool (b : bool)
| VNum (z : Z)
| VStr (s : string)
| VArr (l : list value)
| VObj (o : jsobj value)
| VFun (name : string).   (* a built-in function object *)

(** Errors a JavaScript expression of this code can throw. *)
Inductive js_error :=
| TypeError                 (* property of null/undefined, call of a non-function *)
| SyntaxError               (* JSON.parse / response.json() on a non-JSON text *)
| InvalidCharacterError     (* atob on a non-base64 string *)
| URIError                  (* decodeURIComponent on a malformed escape *)
| RangeError                (* the engine's stack overflow on unbounded recursion *)
| Error (message : string). (* new Error(message) *)

Inductive except (A : Type) :=
| Ok (a : A)
| Throw (e : js_error).
Arguments Ok {A} _.
Arguments Throw {A} _.

Definition bind {A B} (m : except A) (k : A -> except B) : except B :=
  match m with
  | Ok a => k a
  | Throw e => Throw e
  end.

Notation "'let*' x ':=' m 'in' k" := (bind m (fun x => k))
  (at level 200, x name, m at level 100, k at level 200).

(** *** Array indices

    A key is an array index when it is the canonical decimal form of an
    integer in [0, 2^32 - 2]. *)
Definition digit_of (c : ascii) : option N :=
  let n := nat_of_ascii c in
  if (48 <=? n)%nat && (n <=? 57)%nat then Some (N.of_nat (n - 48)) else None.

Fixpoint digits_value (acc : N) (s : string) : option N :=
  match s with
  | EmptyString => Some acc
  | String c s' =>
      match digit_of c with
      | Some d => digits_value (acc * 10 + d)%N s'
      | None => None
      end
  end.

Definition array_index (k : string) : option N :=
  match k with
  | EmptyString => None
  | String c rest =>
      match digit_of c with
      | Some 0%N => match rest with EmptyString => Some 0%N | _ => None end
      | Some d =>
          match digits_value d rest with
          | Some n => if (n <? 4294967295)%N then Some n else None
          | None => None
          end
      | None => None
      end
  end.

Definition key_index (k : string) : N :=
  match array_index k with Some n => n | None => 0%N end.

Definition is_index (k : string) : bool :=
  match array_index k with Some _ => true | None => false end.

(** *** Property lookup and [o[k] = v] *)

Fixpoint assoc {A} (k : string) (l : list (string * A)) : option A :=
  match l with
  | [] => None
  | (k', v) :: l' => if String.eqb k k' then Some v else assoc k l'
  end.

Definition obj_get {A} (o : jsobj A) (k : string) : option A :=
  if is_index k then assoc k (idx_props o) else assoc k (str_props o).

Fixpoint idx_insert {A} (k : string) (v : A) (l : list (string * A))
  : list (string * A) :=
  match l with
  | [] => [(k, v)]
  | (k', w) :: l' =>
      if String.eqb k k' then (k, v) :: l'
      else if (key_index k <? key_index k')%N then (k, v) :: l
      else (k', w) :: idx_insert k v l'
  end.

Fixpoint str_set {A} (k : string) (v : A) (l : list (string * A))
  : list (string * A) :=
  match l with
  | [] => [(k, v)]
  | (k', w) :: l' =>
      if String.eqb k k' then (k, v) :: l' else (k', w) :: str_set k v l'
  end.

Definition obj_set {A} (o : jsobj A) (k : string) (v : A) : jsobj A :=
  if is_index k then mk_jsobj (idx_insert k v (idx_props o)) (str_props o)
  else mk_jsobj (idx_props o) (str_set k v (str_props o)).

Definition obj_empty {A} : jsobj A := mk_jsobj [] [].

Definition obj_entries {A} (o : jsobj A) : list (string * A) :=
  idx_props o ++ str_props o.

(** An object literal [{k1: v1, ..., kn: vn}]. *)
Definition obj_lit {A} (l : list (string * A)) : jsobj A :=
  fold_left (fun o '(k, v) => obj_set o k v) l obj_empty.

(** [o.k] on an object: [undefined] when absent. *)
Definition prop (o : jsobj value) (k : string) : value :=
  match obj_get o k with Some v => v | None => VUndef end.

(** Own properties of string values read by this code: indices, and
    [String.prototype.sub] (the legacy HTML method), which is a function. *)
Definition get_prop (v : value) (k : string) : except value :=
  match v with
  | VUndef | VNull => Throw TypeError
  | VObj o => Ok (prop o k)
  | VArr l =>
      match array_index k with
      | Some n => Ok (match nth_error l (N.to_nat n) with Some x => x | None => VUndef end)
      | None => Ok VUndef
      end
  | VStr s =>
      match array_index k with
      | Some n => Ok (match String.get (N.to_nat n) s with
                      | Some c => VStr (String c EmptyString)
                      | None => VUndef
                      end)
      | None => if String.eqb k "sub" then Ok (VFun "sub") else Ok VUndef
      end
  | _ => Ok VUndef
  end.

(** [x?.k] *)
Definition get_prop_opt (v : value) (k : string) : except value :=
  match v with
  | VUndef | VNull => Ok VUndef
  | _ => get_prop v k
  end.

(** ToBoolean *)
Definition truthy (v : value) : bool :=
  match v with
  | VUndef | VNull => false
  | VBool b => b
  | VNum z => negb (Z.eqb z 0)
  | VStr s => negb (String.eqb s "")
  | _ => true
  end.

(** ToString, as used by template literals and [new Error(x)]. *)
Definition Z_to_decimal (z : Z) : string :=
  NilEmpty.string_of_int (Z.to_int z).

Fixpoint join (sep : string) (l : list string) : string :=
  match l with
  | [] => ""
  | [x] => x
  | x :: l' => x ++ sep ++ join sep l'
  end.

Fixpoint to_string (v : value) : string :=
  match v with
  | VUndef => "undefined"
  | VNull => "null"
  | VBool true => "true"
  | VBool false => "false"
  | VNum z => Z_to_decimal z
  | VStr s => s
  | VArr l =>
      join "," (map (fun x => match x with
                              | VUndef | VNull => ""
                              | _ => to_string x
                              end) l)
  | VObj _ => "[object Object]"
  | VFun name => "function " ++ name ++ "() { [native code] }"
  end.

(** *** [String(v)] as [new Error(v)] applies it

    [to_string] above converts the tools' parameters, which are strings and
    booleans. The message of [new Error(m)] is [ToString(m)] of a value read
    off a response body, where two more cases of the conversion matter:
    - a number is printed by [Number::toString], which gives the shortest
      decimal that reads back as the same double, in exponent form from
      [1e21] on;
    - an object is converted by [OrdinaryToPrimitive] with the methods
      [toString] then [valueOf]: an own [toString] that is not a function
      is skipped, and so is [Object.prototype.valueOf], whose result is the
      object itself, which ends in a TypeError. *)

Section NumberToString.
Local Open Scope Z_scope.

(** [VNum z] is the Number nearest [z]: [round_double z], for [z > 0], is
    [Some (m, e)] with that Number equal to [m * 2^e], [m] below [2^53],
    and [e = 0] for the integers below [2^53], which are exact; [None] is
    Infinity. Rounding is to nearest, ties to even. *)
Definition round_double (z : Z) : option (Z * Z) :=
  let b := Z.log2 z in
  if b <=? 52 then Some (z, 0)
  else
    let e := b - 52 in
    let m := Z.shiftr z e in
    let r := z - Z.shiftl m e in
    let half := Z.shiftl 1 (e - 1) in
    let m' := if (half <? r) || ((r =? half) && Z.odd m) then m + 1 else m in
    let '(m'', e') := if m' =? Z.shiftl 1 53 then (Z.shiftl 1 52, e + 1) else (m', e) in
    if 1024 <=? e' + 52 then None else Some (m'', e').

(** The integers [v] that read back as the double [m * 2^e] ([e >= 1]):
    those strictly within half a gap of its neighbours, or on the boundary
    when [m] is even. The gap below is halved at a power of two. Bounds are
    kept doubled to stay in integers. *)
Definition reads_back (m e v : Z) : bool :=
  let x2 := Z.shiftl m (e + 1) in
  let lo := if m =? Z.shiftl 1 52 then Z.shiftl 1 (e - 1) else Z.shiftl 1 e in
  let hi := Z.shiftl 1 e in
  if Z.even m then (x2 - lo <=? 2 * v) && (2 * v <=? x2 + hi)
  else (x2 - lo <? 2 * v) && (2 * v <? x2 + hi).

(** The multiples of [10^j] next to [x], below and above. *)
Definition near_multiples (x j : Z) : Z * Z :=
  let p := 10 ^ j in (x / p * p, x / p * p + p).

Definition has_multiple (m e j : Z) : bool :=
  let x := Z.shiftl m e in
  let '(c1, c2) := near_multiples x j in reads_back m e c1 || reads_back m e c2.

(** The largest [j] such that some multiple of [10^j] reads back as [x];
    every [j] below it has one too. Doubles stay below [10^309]. *)
Fixpoint max_trailing (fuel : nat) (m e j : Z) : Z :=
  match fuel with
  | O => j
  | S f => if has_multiple m e (j + 1) then max_trailing f m e (j + 1) else j
  end.

(** The multiple of [10^J] that reads back as [x] and is nearest to it;
    on a tie, the one with the even leading part. *)
Definition shortest_digits (m e : Z) : Z * Z :=
  let x := Z.shiftl m e in
  let j := max_trailing 400 m e 0 in
  let p := 10 ^ j in
  let '(c1, c2) := near_multiples x j in
  let s :=
    if negb (reads_back m e c2) then c1 / p
    else if negb (reads_back m e c1) then c2 / p
    else if x - c1 <? c2 - x then c1 / p
    else if c2 - x <? x - c1 then c2 / p
    else if Z.even (c1 / p) then c1 / p else c2 / p in
  (s, j).

(** [s * 10^j] with [k] digits in [s] and [n = k + j]: plain digits when
    [n <= 21], else [d.ddde+(n-1)]. *)
Definition format_number (s j : Z) : string :=
  let ds := Z_to_decimal s in
  let n := Z.of_nat (String.length ds) + j in
  if n <=? 21 then Z_to_decimal (s * 10 ^ j)
  else
    match ds with
    | String d EmptyString => String d EmptyString ++ "e+" ++ Z_to_decimal (n - 1)
    | String d rest => String d EmptyString ++ "." ++ rest ++ "e+" ++ Z_to_decimal (n - 1)
    | EmptyString => ""
    end.

Definition positive_to_string (z : Z) : string :=
  match round_double z with
  | None => "Infinity"
  | Some (m, 0) => Z_to_decimal m
  | Some (m, e) => let '(s, j) := shortest_digits m e in format_number s j
  end.

(** [Number::toString(𝔽(z))] *)
Definition number_to_string (z : Z) : string :=
  if z =? 0 then "0"
  else if z <? 0 then "-" ++ positive_to_string (- z)
  else positive_to_string z.

End NumberToString.

(** ToString. Arrays convert through [Array.prototype.join(",")], holes and
    [null] giving the empty string, the first element that throws ending
    the conversion. The model's only function values are the methods read
    off strings ([get_prop] gives [String.prototype.sub]); called on a plain
    object such a method converts that object to a string first, through
    the same method: the recursion has no end and overflows the stack. *)
Fixpoint js_String (v : value) : except string :=
  match v with
  | VNum z => Ok (number_to_string z)
  | VArr l =>
      let* parts :=
        (fix go (l : list value) : except (list string) :=
           match l with
           | [] => Ok []
           | x :: l' =>
               let* s := match x with
                         | VUndef | VNull => Ok ""
                         | _ => js_String x
                         end in
               let* r := go l' in
               Ok (s :: r)
           end) l in
      Ok (join "," parts)
  | VObj o =>
      match obj_get o "toString" with
      | None => Ok "[object Object]"
      | Some (VFun _) => Throw RangeError
      | Some _ =>
          match obj_get o "valueOf" with
          | Some (VFun _) => Throw RangeError
          | _ => Throw TypeError
          end
      end
  | _ => Ok (to_string v)
  end.

(** ** The block's parameter cleaner ([tools.config.params])

<<
  params: (params) => {
    const { credential, operation, ...rest } = params
    const cleanParams: Record<string, any> = { credential }
    Object.entries(rest).forEach(([key, value]) => {
      if (value !== undefined && value !== null && value !== '') {
        cleanParams[key] = value
      }
    })
    return cleanParams
  },
>> *)

(** [const { a, b, ...rest } = o]: CopyDataProperties into a fresh object. *)
Definition object_rest (o : jsobj value) (excluded : list string) : jsobj value :=
  fold_left (fun acc '(k, v) =>
               if existsb (String.eqb k) excluded then acc else obj_set acc k v)
            (obj_entries o) obj_empty.

(** [value !== undefined && value !== null && value !== ''] *)
Definition keep_value (v : value) : bool :=
  match v with
  | VUndef | VNull => false
  | VStr s => negb (String.eqb s "")
  | _ => true
  end.

Definition sanitizeParams (params : jsobj value) : jsobj value :=
  let credential := prop params "credential" in
  let rest := object_rest params ["credential"; "operation"] in
  fold_left (fun cleanParams '(key, v) =>
               if keep_value v then obj_set cleanParams key v else cleanParams)
            (obj_entries rest) (obj_lit [("credential", credential)]).

(** ** The block's operation switch ([tools.config.tool]) *)

(** The [id]s of the [operation] dropdown, in the order of [options]. *)
Definition operation_options : list string := [
  "get_accounts";
  "create_account";
  "update_account";
  "delete_account";
  "get_contacts";
  "create_contact";
  "update_contact";
  "delete_contact";
  "get_leads";
  "create_lead";
  "update_lead";
  "delete_lead";
  "get_opportunities";
  "create_opportunity";
  "update_opportunity";
  "delete_opportunity";
  "get_cases";
  "create_case";
  "update_case";
  "delete_case";
  "get_tasks";
  "create_task";
  "update_task";
  "delete_task";
  "list_reports";
  "get_report_metadata";
  "run_report";
  "run_report_async";
  "get_report_instance";
  "list_report_instances";
  "delete_report_instance";
  "run_report_with_filters";
  "create_report";
  "update_report";
  "delete_report";
  "list_dashboards";
  "get_dashboard";
  "refresh_dashboard";
  "clone_dashboard";
  "delete_dashboard";
  "get_dashboard_component"].

(** [tools.access]: the tool ids the block may invoke. *)
Definition tools_access : list string := [
  "salesforce_get_accounts";
  "salesforce_create_account";
  "salesforce_update_account";
  "salesforce_delete_account";
  "salesforce_get_contacts";
  "salesforce_create_contact";
  "salesforce_update_contact";
  "salesforce_delete_contact";
  "salesforce_get_leads";
  "salesforce_create_lead";
  "salesforce_update_lead";
  "salesforce_delete_lead";
  "salesforce_get_opportunities";
  "salesforce_create_opportunity";
  "salesforce_update_opportunity";
  "salesforce_delete_opportunity";
  "salesforce_get_cases";
  "salesforce_create_case";
  "salesforce_update_case";
  "salesforce_delete_case";
  "salesforce_get_tasks";
  "salesforce_create_task";
  "salesforce_update_task";
  "salesforce_delete_task";
  "salesforce_list_reports";
  "salesforce_get_report_metadata";
  "salesforce_run_report";
  "salesforce_run_report_async";
  "salesforce_get_report_instance";
  "salesforce_list_report_instances";
  "salesforce_delete_report_instance";
  "salesforce_run_report_with_filters";
  "salesforce_create_report";
  "salesforce_update_report";
  "salesforce_delete_report";
  "salesforce_list_dashboards";
  "salesforce_get_dashboard";
  "salesforce_refresh_dashboard";
  "salesforce_clone_dashboard";
  "salesforce_delete_dashboard";
  "salesforce_get_dashboard_component"].

(** The [case] labels of the switch and the tool id each one returns. *)
Definition tool_cases : list (string * string) := [
  ("get_accounts", "salesforce_get_accounts");
  ("create_account", "salesforce_create_account");
  ("update_account", "salesforce_update_account");
  ("delete_account", "salesforce_delete_account");
  ("get_contacts", "salesforce_get_contacts");
  ("create_contact", "salesforce_create_contact");
  ("update_contact", "salesforce_update_contact");
  ("delete_contact", "salesforce_delete_contact");
  ("get_leads", "salesforce_get_leads");
  ("create_lead", "salesforce_create_lead");
  ("update_lead", "salesforce_update_lead");
  ("delete_lead", "salesforce_delete_lead");
  ("get_opportunities", "salesforce_get_opportunities");
  ("create_opportunity", "salesforce_create_opportunity");
  ("update_opportunity", "salesforce_update_opportunity");
  ("delete_opportunity", "salesforce_delete_opportunity");
  ("get_cases", "salesforce_get_cases");
  ("create_case", "salesforce_create_case");
  ("update_case", "salesforce_update_case");
  ("delete_case", "salesforce_delete_case");
  ("get_tasks", "salesforce_get_tasks");
  ("create_task", "salesforce_create_task");
  ("update_task", "salesforce_update_task");
  ("delete_task", "salesforce_delete_task");
  ("list_reports", "salesforce_list_reports");
  ("get_report_metadata", "salesforce_get_report_metadata");
  ("run_report", "salesforce_run_report");
  ("run_report_async", "salesforce_run_report_async");
  ("get_report_instance", "salesforce_get_report_instance");
  ("list_report_instances", "salesforce_list_report_instances");
  ("delete_report_instance", "salesforce_delete_report_instance");
  ("run_report_with_filters", "salesforce_run_report_with_filters");
  ("create_report", "salesforce_create_report");
  ("update_report", "salesforce_update_report");
  ("delete_report", "salesforce_delete_report");
  ("list_dashboards", "salesforce_list_dashboards");
  ("get_dashboard", "salesforce_get_dashboard");
  ("refresh_dashboard", "salesforce_refresh_dashboard");
  ("clone_dashboard", "salesforce_clone_dashboard");
  ("delete_dashboard", "salesforce_delete_dashboard");
  ("get_dashboard_component", "salesforce_get_dashboard_component")].

(** [switch (params.operation) { case ...: return ...; default: throw ... }]:
    strict equality, so only a string can select a case. *)
Definition switch_operation (operation : value) : except string :=
  match operation with
  | VStr s =>
      match find (fun c => String.eqb s (fst c)) tool_cases with
      | Some (_, id) => Ok id
      | None => Throw (Error ("Unknown operation: " ++ s))
      end
  | _ => Throw (Error ("Unknown operation: " ++ to_string operation))
  end.

Definition tool (params : jsobj value) : except string :=
  switch_operation (prop params "operation").

(** ** Instance URL resolution ([getInstanceUrl])

<<
function getInstanceUrl(idToken?: string, instanceUrl?: string): string {
  if (instanceUrl) return instanceUrl
  if (idToken) {
    try {
      const base64Url = idToken.split('.')[1]
      const base64 = base64Url.replace(/-/g, '+').replace(/_/g, '/')
      const jsonPayload = decodeURIComponent(
        atob(base64)
          .split('')
          .map((c) => `%${(`00${c.charCodeAt(0).toString(16)}`).slice(-2)}`)
          .join('')
      )
      const decoded = JSON.parse(jsonPayload)
      if (decoded.profile) {
        const match = decoded.profile.match(/^(https:\/\/[^/]+)/)
        if (match) return match[1]
      } else if (decoded.sub) {
        const match = decoded.sub.match(/^(https:\/\/[^/]+)/)
        if (match && match[1] !== 'https://login.salesforce.com') return match[1]
      }
    } catch (error) {
      logger.error('Failed to decode Salesforce idToken', { error })
    }
  }
  throw new Error('Salesforce instance URL is required but not provided')
}
>> *)

(** [s.split(sep)] for a one-character separator. *)
Fixpoint split_on (sep : ascii) (s : string) : list string :=
  match s with
  | EmptyString => [EmptyString]
  | String c s' =>
      let parts := split_on sep s' in
      if Ascii.eqb c sep then EmptyString :: parts
      else match parts with
           | p :: ps => String c p :: ps
           | [] => [String c EmptyString]
           end
  end.

(** [s.replace(/a/g, b)] for single characters. *)
Fixpoint replace_all (a b : ascii) (s : string) : string :=
  match s with
  | EmptyString => EmptyString
  | String c s' => String (if Ascii.eqb c a then b else c) (replace_all a b s')
  end.

(** [n.toString(16)] for one hexadecimal digit. *)
Definition hex_digit (n : nat) : ascii :=
  if (n <? 10)%nat then ascii_of_nat (48 + n) else ascii_of_nat (87 + n).

(** [`%${(`00${c.charCodeAt(0).toString(16)}`).slice(-2)}`]: the code of a
    character of [atob]'s output is below 256, so this is "%" followed by
    its two lower-case hexadecimal digits. *)
Definition percent_escape_char (c : ascii) : string :=
  let n := nat_of_ascii c in
  String "%"%char (String (hex_digit (n / 16)) (String (hex_digit (n mod 16)) EmptyString)).

(** [.split('').map(...).join('')] *)
Fixpoint percent_escape (s : string) : string :=
  match s with
  | EmptyString => EmptyString
  | String c s' => percent_escape_char c ++ percent_escape s'
  end.

Fixpoint strip_prefix (p s : string) : option string :=
  match p, s with
  | EmptyString, _ => Some s
  | String a p', String b s' => if Ascii.eqb a b then strip_prefix p' s' else None
  | String _ _, EmptyString => None
  end.

(** [[^/]+] matched greedily: the longest prefix without a slash. *)
Fixpoint take_non_slash (s : string) : string :=
  match s with
  | EmptyString => EmptyString
  | String c s' => if Ascii.eqb c "/"%char then EmptyString else String c (take_non_slash s')
  end.

(** [s.match(/^(https:\/\/[^/]+)/)], returning the group [match[1]]. *)
Definition match_origin (s : string) : option string :=
  match strip_prefix "https://" s with
  | Some rest =>
      match take_non_slash rest with
      | EmptyString => None
      | host => Some ("https://" ++ host)
      end
  | None => None
  end.

(** [v.match(...)]: only strings have a [match] method. *)
Definition call_match_origin (v : value) : except (option string) :=
  match v with
  | VStr s => Ok (match_origin s)
  | _ => Throw TypeError
  end.

Definition login_host : string := "https://login.salesforce.com".

Definition missing_instance_url : js_error :=
  Error "Salesforce instance URL is required but not provided".

(** One call of [logger.error(message, { error })]. *)
Record log_entry := mk_log { log_message : string; log_error : js_error }.

Section Runtime.

(** The platform's built-ins, each [None] where it throws: [atob]
    (InvalidCharacterError on a string that is not base64),
    [decodeURIComponent] (URIError on a malformed escape sequence) and
    [JSON.parse] (SyntaxError on a text that is not JSON). *)
Variable atob : string -> option string.
Variable decodeURIComponent : string -> option string.
Variable JSON_parse : string -> option value.

(** The first statements of the [try] block, up to [JSON.parse]. *)
Definition decode_id_token (idToken : value) : except value :=
  match idToken with
  | VStr tok =>
      match nth_error (split_on "."%char tok) 1 with
      | None => Throw TypeError                  (* undefined.replace(...) *)
      | Some base64Url =>
          let base64 := replace_all "_"%char "/"%char
                          (replace_all "-"%char "+"%char base64Url) in
          match atob base64 with
          | None => Throw InvalidCharacterError
          | Some binary =>
              match decodeURIComponent (percent_escape binary) with
              | None => Throw URIError
              | Some jsonPayload =>
                  match JSON_parse jsonPayload with
                  | None => Throw SyntaxError
                  | Some decoded => Ok decoded
                  end
              end
          end
      end
  | _ => Throw TypeError                         (* idToken.split is not a function *)
  end.

(** The whole [try] block: [Ok (Some o)] is [return o], [Ok None] leaves the
    block normally, [Throw e] goes to the [catch]. *)
Definition origin_from_token (idToken : value) : except (option string) :=
  let* decoded := decode_id_token idToken in
  let* profile := get_prop decoded "profile" in
  if truthy profile then
    call_match_origin profile
  else
    let* sub := get_prop decoded "sub" in
    if truthy sub then
      let* m := call_match_origin sub in
      match m with
      | Some o => if String.eqb o login_host then Ok None else Ok (Some o)
      | None => Ok None
      end
    else Ok None.

(** The result, with the calls made to the logger. *)
Definition getInstanceUrl (idToken instanceUrl : value)
  : list log_entry * except value :=
  if truthy instanceUrl then ([], Ok instanceUrl)
  else if truthy idToken then
    match origin_from_token idToken with
    | Ok (Some o) => ([], Ok (VStr o))
    | Ok None => ([], Throw missing_instance_url)
    | Throw e =>
        ([mk_log "Failed to decode Salesforce idToken" e], Throw missing_instance_url)
    end
  else ([], Throw missing_instance_url).

(** [params.includeDetails !== 'false'] *)
Definition include_details (params : jsobj value) : bool :=
  match prop params "includeDetails" with
  | VStr s => negb (String.eqb s "false")
  | _ => true
  end.

(** [salesforceRunReportTool.request.url] *)
Definition run_report_url (params : jsobj value) : list log_entry * except string :=
  let (logs, r) := getInstanceUrl (prop params "idToken") (prop params "instanceUrl") in
  (logs,
   let* instanceUrl := r in
   Ok (to_string instanceUrl ++ "/services/data/v59.0/analytics/reports/"
       ++ to_string (prop params "reportId")
       ++ "?includeDetails=" ++ to_string (VBool (include_details params)))).

(** [salesforceRunReportAsyncTool.request.url] *)
Definition run_report_async_url (params : jsobj value)
  : list log_entry * except string :=
  let (logs, r) := getInstanceUrl (prop params "idToken") (prop params "instanceUrl") in
  (logs,
   let* instanceUrl := r in
   Ok (to_string instanceUrl ++ "/services/data/v59.0/analytics/reports/"
       ++ to_string (prop params "reportId")
       ++ "/instances?includeDetails=" ++ to_string (VBool (include_details params)))).

End Runtime.

(** ** The report and dashboard tools' [transformResponse] *)

(** The tools of tools/salesforce/reports.ts and dashboards.ts. *)
Inductive report_tool :=
| ListReports | GetReportMetadata | RunReport | RunReportAsync
| GetReportInstance | ListReportInstances | DeleteReportInstance
| RunReportWithFilters | CreateReport | UpdateReport | DeleteReport
| ListDashboards | GetDashboard | RefreshDashboard | CloneDashboard
| DeleteDashboard | GetDashboardComponent.

Definition all_report_tools : list report_tool :=
  [ListReports; GetReportMetadata; RunReport; RunReportAsync;
   GetReportInstance; ListReportInstances; DeleteReportInstance;
   RunReportWithFilters; CreateReport; UpdateReport; DeleteReport;
   ListDashboards; GetDashboard; RefreshDashboard; CloneDashboard;
   DeleteDashboard; GetDashboardComponent].

(** The [id] field of each tool. *)
Definition tool_id (t : report_tool) : string :=
  match t with
  | ListReports => "salesforce_list_reports"
  | GetReportMetadata => "salesforce_get_report_metadata"
  | RunReport => "salesforce_run_report"
  | RunReportAsync => "salesforce_run_report_async"
  | GetReportInstance => "salesforce_get_report_instance"
  | ListReportInstances => "salesforce_list_report_instances"
  | DeleteReportInstance => "salesforce_delete_report_instance"
  | RunReportWithFilters => "salesforce_run_report_with_filters"
  | CreateReport => "salesforce_create_report"
  | UpdateReport => "salesforce_update_report"
  | DeleteReport => "salesforce_delete_report"
  | ListDashboards => "salesforce_list_dashboards"
  | GetDashboard => "salesforce_get_dashboard"
  | RefreshDashboard => "salesforce_refresh_dashboard"
  | CloneDashboard => "salesforce_clone_dashboard"
  | DeleteDashboard => "salesforce_delete_dashboard"
  | GetDashboardComponent => "salesforce_get_dashboard_component"
  end.

(** The last operand of [data[0]?.message || data.message || '...']. *)
Definition fallback_message (t : report_tool) : string :=
  match t with
  | ListReports => "Failed to list reports"
  | GetReportMetadata => "Failed to get report metadata"
  | RunReport => "Failed to run report"
  | RunReportAsync => "Failed to run report asynchronously"
  | GetReportInstance => "Failed to get report instance"
  | ListReportInstances => "Failed to list report instances"
  | DeleteReportInstance => "Failed to delete report instance"
  | RunReportWithFilters => "Failed to run report with filters"
  | CreateReport => "Failed to create report"
  | UpdateReport => "Failed to update report"
  | DeleteReport => "Failed to delete report"
  | ListDashboards => "Failed to list dashboards"
  | GetDashboard => "Failed to get dashboard"
  | RefreshDashboard => "Failed to refresh dashboard"
  | CloneDashboard => "Failed to clone dashboard"
  | DeleteDashboard => "Failed to delete dashboard"
  | GetDashboardComponent => "Failed to get dashboard component"
  end.

(** The tools whose [transformResponse] reads the body only on failure,
    with [response.json().catch(() => ({}))]. *)
Definition is_delete (t : report_tool) : bool :=
  match t with
  | DeleteReportInstance | DeleteReport | DeleteDashboard => true
  | _ => false
  end.

(** A fetch [Response]: [ok] is a 2xx status; [json_body] is what
    [response.json()] resolves to, [None] where it rejects (a body that is
    not JSON). *)
Record response := mk_response { ok : bool; json_body : option value }.

(** [data[0]?.message || data.message || fallback], converted by
    [new Error(...)] to the error's message. *)
Definition error_message (data : value) (fallback : string) : except string :=
  let* d0 := get_prop data "0" in
  let* m0 := get_prop_opt d0 "message" in
  if truthy m0 then js_String m0
  else
    let* m1 := get_prop data "message" in
    if truthy m1 then js_String m1 else Ok fallback.

Definition op_metadata (operation : string) : value :=
  VObj (obj_lit [("operation", VStr operation)]).

(** The [output] object literal each tool returns on success; [data] is the
    parsed body ([undefined] for the delete tools, which do not read it). *)
Definition tool_output (t : report_tool) (data : value) (params : jsobj value)
  : except value :=
  let p := prop params in
  match t with
  | ListReports =>
      Ok (VObj (obj_lit [("reports", data);
                         ("metadata", op_metadata "list_reports");
                         ("success", VBool true)]))
  | GetReportMetadata =>
      Ok (VObj (obj_lit [("reportId", p "reportId");
                         ("metadata", data);
                         ("operation", VStr "get_report_metadata");
                         ("success", VBool true)]))
  | RunReport =>
      Ok (VObj (obj_lit [("reportId", p "reportId");
                         ("reportData", data);
                         ("metadata", op_metadata "run_report");
                         ("success", VBool true)]))
  | RunReportAsync =>
      let* id := get_prop data "id" in
      let* status := get_prop data "status" in
      let* requestDate := get_prop data "requestDate" in
      Ok (VObj (obj_lit [("reportId", p "reportId");
                         ("instanceId", id);
                         ("status", status);
                         ("requestDate", requestDate);
                         ("metadata", op_metadata "run_report_async");
                         ("success", VBool true)]))
  | GetReportInstance =>
      Ok (VObj (obj_lit [("reportId", p "reportId");
                         ("instanceId", p "instanceId");
                         ("reportData", data);
                         ("metadata", op_metadata "get_report_instance");
                         ("success", VBool true)]))
  | ListReportInstances =>
      Ok (VObj (obj_lit [("reportId", p "reportId");
                         ("instances", data);
                         ("metadata", op_metadata "list_report_instances");
                         ("success", VBool true)]))
  | DeleteReportInstance =>
      Ok (VObj (obj_lit [("reportId", p "reportId");
                         ("instanceId", p "instanceId");
                         ("deleted", VBool true);
                         ("metadata", op_metadata "delete_report_instance")]))
  | RunReportWithFilters =>
      Ok (VObj (obj_lit [("reportId", p "reportId");
                         ("reportData", data);
                         ("metadata", op_metadata "run_report_with_filters");
                         ("success", VBool true)]))
  | CreateReport =>
      let* id := get_prop data "id" in
      Ok (VObj (obj_lit [("reportId", id);
                         ("report", data);
                         ("created", VBool true);
                         ("metadata", op_metadata "create_report");
                         ("success", VBool true)]))
  | UpdateReport =>
      Ok (VObj (obj_lit [("reportId", p "reportId");
                         ("report", data);
                         ("updated", VBool true);
                         ("metadata", op_metadata "update_report");
                         ("success", VBool true)]))
  | DeleteReport =>
      Ok (VObj (obj_lit [("reportId", p "reportId");
                         ("deleted", VBool true);
                         ("metadata", op_metadata "delete_report")]))
  | ListDashboards =>
      Ok (VObj (obj_lit [("dashboards", data);
                         ("metadata", op_metadata "list_dashboards");
                         ("success", VBool true)]))
  | GetDashboard =>
      Ok (VObj (obj_lit [("dashboardId", p "dashboardId");
                         ("dashboard", data);
                         ("metadata", op_metadata "get_dashboard");
                         ("success", VBool true)]))
  | RefreshDashboard =>
      Ok (VObj (obj_lit [("dashboardId", p "dashboardId");
                         ("dashboardData", data);
                         ("metadata", op_metadata "refresh_dashboard");
                         ("success", VBool true)]))
  | CloneDashboard =>
      let* id := get_prop data "id" in
      Ok (VObj (obj_lit [("sourceDashboardId", p "dashboardId");
                         ("newDashboardId", id);
                         ("name", p "name");
                         ("dashboard", data);
                         ("metadata", op_metadata "clone_dashboard");
                         ("success", VBool true)]))
  | DeleteDashboard =>
      Ok (VObj (obj_lit [("dashboardId", p "dashboardId");
                         ("deleted", VBool true);
                         ("metadata", op_metadata "delete_dashboard")]))
  | GetDashboardComponent =>
      Ok (VObj (obj_lit [("dashboardId", p "dashboardId");
                         ("componentId", p "componentId");
                         ("componentData", data);
                         ("metadata", op_metadata "get_dashboard_component");
                         ("success", VBool true)]))
  end.

Definition envelope (output : value) : value :=
  VObj (obj_lit [("success", VBool true); ("output", output)]).

(** [transformResponse(response, params)]. The non-delete tools read
    [const data = await response.json()] first and throw
    [new Error(data[0]?.message || data.message || '...')] when
    [!response.ok]; the delete tools read the body only when [!response.ok],
    through [response.json().catch(() => ({}))]. *)
Definition transformResponse (t : report_tool) (resp : response)
  (params : jsobj value) : except value :=
  if is_delete t then
    if ok resp then
      let* out := tool_output t VUndef params in
      Ok (envelope out)
    else
      let data := match json_body resp with
                  | Some d => d
                  | None => VObj obj_empty
                  end in
      let* m := error_message data (fallback_message t) in
      Throw (Error m)
  else
    match json_body resp with
    | None => Throw SyntaxError
    | Some data =>
        if ok resp then
          let* out := tool_output t data params in
          Ok (envelope out)
        else
          let* m := error_message data (fallback_message t) in
          Throw (Error m)
    end.

(** ** The tools' [request] *)

(** [request.method] *)
Definition request_method (t : report_tool) : string :=
  match t with
  | RunReportAsync | RunReportWithFilters | CreateReport | CloneDashboard => "POST"
  | UpdateReport => "PATCH"
  | DeleteReportInstance | DeleteReport | DeleteDashboard => "DELETE"
  | _ => "GET"
  end.

(** [request.headers(params)]: the delete tools send no [Content-Type]. *)
Definition request_headers (t : report_tool) (params : jsobj value) : jsobj value :=
  let auth := ("Authorization", VStr ("Bearer " ++ to_string (prop params "accessToken"))) in
  if is_delete t then obj_lit [auth]
  else obj_lit [auth; ("Content-Type", VStr "application/json")].

(** The rest of each tool's [request.url] template after [${instanceUrl}];
    each [${params.x}] is [ToString(params.x)]. *)
Definition url_path (t : report_tool) (params : jsobj value) : string :=
  let p k := to_string (prop params k) in
  let reports := "/services/data/v59.0/analytics/reports" in
  let dashboards := "/services/data/v59.0/analytics/dashboards" in
  match t with
  | ListReports => reports
  | GetReportMetadata => reports ++ "/" ++ p "reportId" ++ "/describe"
  | RunReport =>
      reports ++ "/" ++ p "reportId"
      ++ "?includeDetails=" ++ to_string (VBool (include_details params))
  | RunReportAsync =>
      reports ++ "/" ++ p "reportId"
      ++ "/instances?includeDetails=" ++ to_string (VBool (include_details params))
  | GetReportInstance => reports ++ "/" ++ p "reportId" ++ "/instances/" ++ p "instanceId"
  | ListReportInstances => reports ++ "/" ++ p "reportId" ++ "/instances"
  | DeleteReportInstance => reports ++ "/" ++ p "reportId" ++ "/instances/" ++ p "instanceId"
  | RunReportWithFilters => reports ++ "/" ++ p "reportId"
  | CreateReport => reports
  | UpdateReport => reports ++ "/" ++ p "reportId"
  | DeleteReport => reports ++ "/" ++ p "reportId"
  | ListDashboards => dashboards
  | GetDashboard => dashboards ++ "/" ++ p "dashboardId" ++ "/describe"
  | RefreshDashboard => dashboards ++ "/" ++ p "dashboardId"
  | CloneDashboard => dashboards
  | DeleteDashboard => dashboards ++ "/" ++ p "dashboardId"
  | GetDashboardComponent =>
      dashboards ++ "/" ++ p "dashboardId" ++ "/components/" ++ p "componentId"
  end.

(** [new Error('Invalid JSON in reportMetadata parameter')] *)
Definition invalid_report_metadata : js_error :=
  Error "Invalid JSON in reportMetadata parameter".

(** [try { ... } catch (error) { throw new Error('Invalid JSON ...') }] *)
Definition catch_invalid (r : except value) : except value :=
  match r with
  | Ok v => Ok v
  | Throw _ => Throw invalid_report_metadata
  end.

(** After [const parsed = JSON.parse(params.reportMetadata)] in
    create_report's and update_report's [body]:
    [if (parsed.reportMetadata) return parsed; return { reportMetadata: parsed }]. *)
Definition wrap_report_metadata (parsed : value) : except value :=
  let* inner := get_prop parsed "reportMetadata" in
  if truthy inner then Ok parsed
  else Ok (VObj (obj_lit [("reportMetadata", parsed)])).

(** clone_dashboard's [body]:
    [{ name: params.name, sourceId: params.dashboardId }], then
    [if (params.folderId) body.folderId = params.folderId]. *)
Definition clone_body (params : jsobj value) : jsobj value :=
  let body := obj_lit [("name", prop params "name");
                       ("sourceId", prop params "dashboardId")] in
  if truthy (prop params "folderId")
  then obj_set body "folderId" (prop params "folderId")
  else body.

Section Requests.

Variable atob : string -> option string.
Variable decodeURIComponent : string -> option string.
Variable JSON_parse : string -> option value.

(** [request.url(params)]: [getInstanceUrl(params.idToken, params.instanceUrl)]
    followed by the tool's template. *)
Definition request_url (t : report_tool) (params : jsobj value)
  : list log_entry * except string :=
  let (logs, r) := getInstanceUrl atob decodeURIComponent JSON_parse
                     (prop params "idToken") (prop params "instanceUrl") in
  (logs,
   let* instanceUrl := r in
   Ok (to_string instanceUrl ++ url_path t params)).

(** [JSON.parse(params.reportMetadata)], which converts its argument to a
    string first. *)
Definition parse_report_metadata (params : jsobj value) : except value :=
  match JSON_parse (to_string (prop params "reportMetadata")) with
  | Some v => Ok v
  | None => Throw SyntaxError
  end.

(** [request.body(params)], [None] for the tools without a [body]. *)
Definition request_body (t : report_tool) (params : jsobj value)
  : option (except value) :=
  match t with
  | RunReportAsync => Some (Ok (VObj obj_empty))
  | RunReportWithFilters => Some (catch_invalid (parse_report_metadata params))
  | CreateReport | UpdateReport =>
      Some (catch_invalid (let* parsed := parse_report_metadata params in
                           wrap_report_metadata parsed))
  | CloneDashboard => Some (Ok (VObj (clone_body params)))
  | _ => None
  end.

End Requests.

(** ** The block's inputs and the tools' parameters *)

(** A sub-block of [SalesforceBlock.subBlocks]: its [id], whether it is
    [required], and the operations of its [condition] (shown for every
    operation when it has none). *)
Record sub_block := mk_sub_block {
  sb_id : string;
  sb_required : bool;
  sb_condition : option (list string)
}.

Definition sub_blocks : list sub_block := [
  mk_sub_block "operation" false
    (None);
  mk_sub_block "credential" true
    (None);
  mk_sub_block "fields" false
    (Some ["get_accounts"; "get_contacts"; "get_leads"; "get_opportunities"; "get_cases"; "get_tasks"]);
  mk_sub_block "limit" false
    (Some ["get_accounts"; "get_contacts"; "get_leads"; "get_opportunities"; "get_cases"; "get_tasks"]);
  mk_sub_block "orderBy" false
    (Some ["get_accounts"; "get_contacts"; "get_leads"; "get_opportunities"; "get_cases"; "get_tasks"]);
  mk_sub_block "accountId" false
    (Some ["update_account"; "delete_account"; "create_contact"; "update_contact"; "create_case"]);
  mk_sub_block "name" false
    (Some ["create_account"; "update_account"; "create_opportunity"; "update_opportunity"; "clone_dashboard"]);
  mk_sub_block "type" false
    (Some ["create_account"; "update_account"]);
  mk_sub_block "industry" false
    (Some ["create_account"; "update_account"]);
  mk_sub_block "phone" false
    (Some ["create_account"; "update_account"; "create_contact"; "update_contact"; "create_lead"; "update_lead"]);
  mk_sub_block "website" false
    (Some ["create_account"; "update_account"]);
  mk_sub_block "contactId" false
    (Some ["get_contacts"; "update_contact"; "delete_contact"; "create_case"]);
  mk_sub_block "lastName" false
    (Some ["create_contact"; "update_contact"; "create_lead"; "update_lead"]);
  mk_sub_block "firstName" false
    (Some ["create_contact"; "update_contact"; "create_lead"; "update_lead"]);
  mk_sub_block "email" false
    (Some ["create_contact"; "update_contact"; "create_lead"; "update_lead"]);
  mk_sub_block "title" false
    (Some ["create_contact"; "update_contact"; "create_lead"; "update_lead"]);
  mk_sub_block "leadId" false
    (Some ["get_leads"; "update_lead"; "delete_lead"]);
  mk_sub_block "company" false
    (Some ["create_lead"; "update_lead"]);
  mk_sub_block "status" false
    (Some ["create_lead"; "update_lead"; "create_case"; "update_case"; "create_task"; "update_task"]);
  mk_sub_block "leadSource" false
    (Some ["create_lead"; "update_lead"]);
  mk_sub_block "opportunityId" false
    (Some ["get_opportunities"; "update_opportunity"; "delete_opportunity"]);
  mk_sub_block "stageName" false
    (Some ["create_opportunity"; "update_opportunity"]);
  mk_sub_block "closeDate" true
    (Some ["create_opportunity"; "update_opportunity"]);
  mk_sub_block "amount" false
    (Some ["create_opportunity"; "update_opportunity"]);
  mk_sub_block "probability" false
    (Some ["create_opportunity"; "update_opportunity"]);
  mk_sub_block "caseId" false
    (Some ["get_cases"; "update_case"; "delete_case"]);
  mk_sub_block "subject" false
    (Some ["create_case"; "update_case"; "create_task"; "update_task"]);
  mk_sub_block "priority" false
    (Some ["create_case"; "update_case"; "create_task"; "update_task"]);
  mk_sub_block "origin" false
    (Some ["create_case"]);
  mk_sub_block "taskId" false
    (Some ["get_tasks"; "update_task"; "delete_task"]);
  mk_sub_block "activityDate" false
    (Some ["create_task"; "update_task"]);
  mk_sub_block "whoId" false
    (Some ["create_task"]);
  mk_sub_block "whatId" false
    (Some ["create_task"]);
  mk_sub_block "reportId" true
    (Some ["get_report_metadata"; "run_report"; "run_report_async"; "get_report_instance"; "list_report_instances"; "delete_report_instance"; "run_report_with_filters"; "update_report"; "delete_report"]);
  mk_sub_block "instanceId" true
    (Some ["get_report_instance"; "delete_report_instance"]);
  mk_sub_block "includeDetails" false
    (Some ["run_report"; "run_report_async"]);
  mk_sub_block "dashboardId" true
    (Some ["get_dashboard"; "refresh_dashboard"; "clone_dashboard"; "delete_dashboard"; "get_dashboard_component"]);
  mk_sub_block "componentId" true
    (Some ["get_dashboard_component"]);
  mk_sub_block "folderId" false
    (Some ["clone_dashboard"]);
  mk_sub_block "description" false
    (Some ["create_account"; "update_account"; "create_contact"; "update_contact"; "create_lead"; "update_lead"; "create_opportunity"; "update_opportunity"; "create_case"; "update_case"; "create_task"; "update_task"]);
  mk_sub_block "reportMetadata" true
    (Some ["run_report_with_filters"; "create_report"; "update_report"])].

(** The sub-blocks whose condition admits [operation = op]. *)
Definition shown_for (op : string) : list sub_block :=
  filter (fun b => match sb_condition b with
                   | None => true
                   | Some ops => existsb (String.eqb op) ops
                   end) sub_blocks.

(** An entry of a tool's [params]. *)
Record param_decl := mk_param {
  pd_name : string;
  pd_required : bool;
  pd_visibility : string
}.

Definition hidden_params : list param_decl :=
  [mk_param "accessToken" true "hidden"; mk_param "idToken" false "hidden";
   mk_param "instanceUrl" false "hidden"].

(** [params] of each tool, in order. *)
Definition tool_params (t : report_tool) : list param_decl :=
  match t with
  | ListReports => hidden_params
  | GetReportMetadata => app hidden_params [mk_param "reportId" true "user-only"]
  | RunReport => app hidden_params [mk_param "reportId" true "user-only";
      mk_param "includeDetails" false "user-only"]
  | RunReportAsync => app hidden_params [mk_param "reportId" true "user-only";
      mk_param "includeDetails" false "user-only"]
  | GetReportInstance => app hidden_params [mk_param "reportId" true "user-only";
      mk_param "instanceId" true "user-only"]
  | ListReportInstances => app hidden_params [mk_param "reportId" true "user-only"]
  | DeleteReportInstance => app hidden_params [mk_param "reportId" true "user-only";
      mk_param "instanceId" true "user-only"]
  | RunReportWithFilters => app hidden_params [mk_param "reportId" true "user-only";
      mk_param "reportMetadata" true "user-only"]
  | CreateReport => app hidden_params [mk_param "reportMetadata" true "user-only"]
  | UpdateReport => app hidden_params [mk_param "reportId" true "user-only";
      mk_param "reportMetadata" true "user-only"]
  | DeleteReport => app hidden_params [mk_param "reportId" true "user-only"]
  | ListDashboards => hidden_params
  | GetDashboard => app hidden_params [mk_param "dashboardId" true "user-only"]
  | RefreshDashboard => app hidden_params [mk_param "dashboardId" true "user-only"]
  | CloneDashboard => app hidden_params [mk_param "dashboardId" true "user-only";
      mk_param "name" true "user-only";
      mk_param "folderId" false "user-only"]
  | DeleteDashboard => app hidden_params [mk_param "dashboardId" true "user-only"]
  | GetDashboardComponent => app hidden_params [mk_param "dashboardId" true "user-only";
      mk_param "componentId" true "user-only"]
  end.

(** The parameters the user fills in ([visibility: 'user-only']). *)
Definition user_params (t : report_tool) : list string :=
  map pd_name (filter (fun d => String.eqb (pd_visibility d) "user-only") (tool_params t)).

Definition required_user_params (t : report_tool) : list string :=
  map pd_name (filter (fun d => String.eqb (pd_visibility d) "user-only" && pd_required d)
                 (tool_params t)).

(** The fields the block shows for [op] besides [operation] and [credential],
    and those it marks [required]. *)
Definition block_fields (op : string) : list string :=
  filter (fun id => negb (String.eqb id "operation") && negb (String.eqb id "credential"))
    (map sb_id (shown_for op)).

Definition block_required_fields (op : string) : list string :=
  filter (fun id => negb (String.eqb id "operation") && negb (String.eqb id "credential"))
    (map sb_id (filter sb_required (shown_for op))).

(** The resource family of each tool's endpoint. *)
Definition api_area (t : report_tool) : string :=
  match t with
  | ListDashboards | GetDashboard | RefreshDashboard | CloneDashboard
  | DeleteDashboard | GetDashboardComponent => "dashboards"
  | _ => "reports"
  end.

(** ** Vocabulary of the properties *)

(** [s] ends with [suffix]. *)
Fixpoint srev (s : string) : string :=
  match s with
  | EmptyString => EmptyString
  | String c s' => srev s' ++ String c EmptyString
  end.

Definition ends_with (suffix s : string) : bool :=
  String.prefix (srev suffix) (srev s).

(** The error-message priority order as the spec words it: [body[0].message]
    if present, else [body.message] if present, else the fixed fallback;
    "present" is read as JavaScript's [||] reads it (a truthy value). The
    error's message is the string conversion of the value chosen, which
    throws for an object whose own [toString] is not a function. *)
Definition first_element (body : value) : value :=
  match body with
  | VArr (x :: _) => x
  | VObj o => prop o "0"
  | VStr (String c _) => VStr (String c EmptyString)
  | _ => VUndef
  end.

Definition message_field (v : value) : value :=
  match v with
  | VObj o => prop o "message"
  | _ => VUndef
  end.

Definition spec_error_message (body : value) (fallback : string) : except string :=
  let m0 := message_field (first_element body) in
  let m1 := message_field body in
  if truthy m0 then js_String m0
  else if truthy m1 then js_String m1
  else Ok fallback.

(** The body the error branch reads: for the delete tools a body that is not
    JSON reads as [{}]. *)
Definition error_body (t : report_tool) (resp : response) : option value :=
  if is_delete t then
    Some (match json_body resp with Some d => d | None => VObj obj_empty end)
  else json_body resp.

(** A body the success branch can read: the delete tools do not read it;
    the other tools need a JSON value other than [null]. *)
Definition success_body_ok (t : report_tool) (resp : response) : Prop :=
  is_delete t = true \/
  exists v, json_body resp = Some v /\ v <> VNull /\ v <> VUndef.

(** Well-formed objects, as every JavaScript object is: index keys sorted
    by numeric value and without repetition, the other keys distinct. *)
Definition idx_lt (a b : string * value) : Prop :=
  (key_index (fst a) < key_index (fst b))%N.

Record wf_obj (o : jsobj value) : Prop := {
  wf_idx_keys : Forall (fun kv => is_index (fst kv) = true) (idx_props o);
  wf_idx_sorted : StronglySorted idx_lt (idx_props o);
  wf_str_keys : Forall (fun kv => is_index (fst kv) = false) (str_props o);
  wf_str_nodup : NoDup (map fst (str_props o))
}.

(** The entries [sanitizeParams] keeps besides [credential], as the spec
    words it. *)
Definition kept_entry (kv : string * value) : bool :=
  negb (String.eqb (fst kv) "credential") && negb (String.eqb (fst kv) "operation")
  && keep_value (snd kv).

(** [o[k] = v] for the entries that satisfy [p], in order: the loops of
    [sanitizeParams] and of the rest pattern have this form. *)
Definition set_if (p : string * value -> bool) (acc : jsobj value)
  (kv : string * value) : jsobj value :=
  if p kv then obj_set acc (fst kv) (snd kv) else acc.

Definition not_excluded (excluded : list string) (kv : string * value) : bool :=
  negb (existsb (String.eqb (fst kv)) excluded).

(** * Properties *)

(** ** The operation switch *)

Lemma tool_cases_keys : map fst tool_cases = operation_options.
Proof. reflexivity. Qed.

Lemma switch_known_table :
  forallb (fun s => match switch_operation (VStr s) with
                    | Ok id => String.eqb id ("salesforce_" ++ s)
                               && existsb (String.eqb id) tools_access
                    | Throw _ => false
                    end) operation_options = true.
Proof. vm_compute. reflexivity. Qed.

(** C7: every id of the operation dropdown selects the tool
    ["salesforce_" ++ id], which is one of the block's [tools.access]; any
    other operation value, string or not, makes the switch throw
    ["Unknown operation: ..."]: there is no default tool. *)
Theorem switch_operation_total_exact :
  forall operation,
    (forall s, operation = VStr s -> In s operation_options ->
       switch_operation operation = Ok ("salesforce_" ++ s)
       /\ In ("salesforce_" ++ s) tools_access)
    /\ ((forall s, operation = VStr s -> ~ In s operation_options) ->
       switch_operation operation
       = Throw (Error ("Unknown operation: " ++ to_string operation))).
Proof.
  intros operation. split.
  - intros s -> Hin.
    pose proof switch_known_table as Ht.
    rewrite forallb_forall in Ht. specialize (Ht s Hin).
    destruct (switch_operation (VStr s)) as [id|e]; [|discriminate].
    apply andb_prop in Ht as [Hid Hacc].
    apply String.eqb_eq in Hid. subst id. split; [reflexivity|].
    apply existsb_exists in Hacc as [x [Hx Heq]].
    apply String.eqb_eq in Heq. subst x. exact Hx.
  - intros Hnot. destruct operation; try reflexivity.
    unfold switch_operation.
    destruct (find (fun c => String.eqb s (fst c)) tool_cases) as [[k id]|] eqn:Hf;
      [|reflexivity].
    exfalso. apply (Hnot s eq_refl).
    apply find_some in Hf as [Hin Heq]. simpl in Heq.
    apply String.eqb_eq in Heq. subst k.
    rewrite <- tool_cases_keys. apply (in_map fst) in Hin. exact Hin.
Qed.

Lemma switch_operation_total_exact_witness :
  switch_operation (VStr "update_lead") = Ok "salesforce_update_lead"
  /\ switch_operation (VStr "bogus") = Throw (Error "Unknown operation: bogus").
Proof.
  split.
  - apply (proj1 (switch_operation_total_exact (VStr "update_lead")) "update_lead").
    + reflexivity.
    + simpl. tauto.
  - apply (proj2 (switch_operation_total_exact (VStr "bogus"))).
    intros s Hs. injection Hs as <-. simpl. intuition discriminate.
Defined.

(** ** Instance URL resolution *)

Section Resolver.

Variable atob : string -> option string.
Variable decodeURIComponent : string -> option string.
Variable JSON_parse : string -> option value.

Local Abbreviation decode := (decode_id_token atob decodeURIComponent JSON_parse).
Local Abbreviation resolve := (getInstanceUrl atob decodeURIComponent JSON_parse).

(** A token that decodes is a non-empty string, so [if (idToken)] holds. *)
Lemma decode_id_token_truthy :
  forall idToken decoded, decode idToken = Ok decoded -> truthy idToken = true.
Proof.
  intros idToken decoded H. destruct idToken as [| | | |s| | |]; try discriminate.
  destruct s as [|c s]; [discriminate | reflexivity].
Qed.

Lemma match_origin_nonempty :
  forall s origin, match_origin s = Some origin -> String.eqb s "" = false.
Proof. intros [|c s] origin H; [discriminate | reflexivity]. Qed.

(** C4: a non-empty explicit instance URL is returned unchanged, whatever
    the token, without a log entry; the result does not depend on the
    decoding built-ins, so no decoding takes place. *)
Theorem getInstanceUrl_explicit_url :
  forall idToken url, url <> "" ->
    getInstanceUrl atob decodeURIComponent JSON_parse idToken (VStr url)
    = ([], Ok (VStr url)).
Proof.
  intros idToken url Hne. unfold getInstanceUrl. simpl.
  destruct (String.eqb url "") eqn:E.
  - apply String.eqb_eq in E. contradiction.
  - reflexivity.
Qed.

(** C3: with no explicit URL, a token whose payload has a [profile] string
    starting with an https origin resolves to that origin, whatever the
    origin is (the login host included). *)
Theorem getInstanceUrl_profile_origin :
  forall idToken instanceUrl decoded profile origin,
    truthy instanceUrl = false ->
    decode idToken = Ok decoded ->
    get_prop decoded "profile" = Ok (VStr profile) ->
    match_origin profile = Some origin ->
    resolve idToken instanceUrl = ([], Ok (VStr origin)).
Proof.
  intros idToken instanceUrl decoded profile origin Hiu Hdec Hprof Hm.
  unfold getInstanceUrl. rewrite Hiu, (decode_id_token_truthy _ _ Hdec).
  unfold origin_from_token. rewrite Hdec. simpl. rewrite Hprof. simpl.
  rewrite (match_origin_nonempty _ _ Hm). simpl. rewrite Hm. reflexivity.
Qed.

(** C2: with no explicit URL, a token whose payload has no [profile] but a
    [sub] string starting with an https origin resolves to that origin,
    unless the origin is the login host, where resolution throws the
    missing-instance-URL error (without a log entry). *)
Theorem getInstanceUrl_sub_origin :
  forall idToken instanceUrl decoded sub origin,
    truthy instanceUrl = false ->
    decode idToken = Ok decoded ->
    get_prop decoded "profile" = Ok VUndef ->
    get_prop decoded "sub" = Ok (VStr sub) ->
    match_origin sub = Some origin ->
    (origin <> login_host -> resolve idToken instanceUrl = ([], Ok (VStr origin)))
    /\ (origin = login_host ->
        resolve idToken instanceUrl = ([], Throw missing_instance_url)).
Proof.
  intros idToken instanceUrl decoded sub origin Hiu Hdec Hprof Hsub Hm.
  unfold getInstanceUrl. rewrite Hiu, (decode_id_token_truthy _ _ Hdec).
  unfold origin_from_token. rewrite Hdec. simpl. rewrite Hprof. simpl.
  rewrite Hsub. simpl. rewrite (match_origin_nonempty _ _ Hm). simpl. rewrite Hm.
  split.
  - intros Hne. destruct (String.eqb origin login_host) eqn:E.
    + apply String.eqb_eq in E. contradiction.
    + reflexivity.
  - intros ->. reflexivity.
Qed.

(** C5 (as corrected): with no explicit URL, a non-empty token whose
    decoding throws (not base64, not a percent-decodable text, not JSON, or
    no payload segment) is caught: exactly one log entry records the error,
    and resolution throws [Error("Salesforce instance URL is required but
    not provided")]. *)
Theorem getInstanceUrl_malformed_token :
  forall idToken instanceUrl e,
    truthy instanceUrl = false ->
    truthy idToken = true ->
    decode idToken = Throw e ->
    resolve idToken instanceUrl
    = ([mk_log "Failed to decode Salesforce idToken" e],
       Throw (Error "Salesforce instance URL is required but not provided")).
Proof.
  intros idToken instanceUrl e Hiu Htok Hdec.
  unfold getInstanceUrl. rewrite Hiu, Htok.
  unfold origin_from_token. rewrite Hdec. reflexivity.
Qed.

End Resolver.

Lemma getInstanceUrl_explicit_url_witness :
  getInstanceUrl (fun _ => None) (fun _ => None) (fun _ => None)
    (VStr "not-a-token") (VStr "https://acme.my.salesforce.com")
  = ([], Ok (VStr "https://acme.my.salesforce.com")).
Proof. apply getInstanceUrl_explicit_url. discriminate. Defined.

(** A token "h.p.s" whose payload decodes to
    [{"profile": "https://login.salesforce.com/id/abc"}]. *)
Lemma getInstanceUrl_profile_origin_witness :
  getInstanceUrl (fun s => Some s) (fun s => Some s)
    (fun _ => Some (VObj (obj_lit [("profile", VStr "https://login.salesforce.com/id/abc")])))
    (VStr "h.p.s") VUndef
  = ([], Ok (VStr "https://login.salesforce.com")).
Proof.
  apply (getInstanceUrl_profile_origin _ _ _ _ _
           (VObj (obj_lit [("profile", VStr "https://login.salesforce.com/id/abc")]))
           "https://login.salesforce.com/id/abc");
    reflexivity.
Defined.

(** Tokens whose payloads decode to [{"sub": "https://acme.my.salesforce.com/id/xyz"}]
    and [{"sub": "https://login.salesforce.com/id/xyz"}]. *)
Lemma getInstanceUrl_sub_origin_witness :
  getInstanceUrl (fun s => Some s) (fun s => Some s)
    (fun _ => Some (VObj (obj_lit [("sub", VStr "https://acme.my.salesforce.com/id/xyz")])))
    (VStr "h.p.s") VUndef
  = ([], Ok (VStr "https://acme.my.salesforce.com"))
  /\
  getInstanceUrl (fun s => Some s) (fun s => Some s)
    (fun _ => Some (VObj (obj_lit [("sub", VStr "https://login.salesforce.com/id/xyz")])))
    (VStr "h.p.s") VUndef
  = ([], Throw missing_instance_url).
Proof.
  split.
  - refine (proj1 (getInstanceUrl_sub_origin (fun s => Some s) (fun s => Some s)
             (fun _ => Some (VObj (obj_lit [("sub", VStr "https://acme.my.salesforce.com/id/xyz")])))
             (VStr "h.p.s") VUndef
             (VObj (obj_lit [("sub", VStr "https://acme.my.salesforce.com/id/xyz")]))
             "https://acme.my.salesforce.com/id/xyz" "https://acme.my.salesforce.com"
             eq_refl eq_refl eq_refl eq_refl eq_refl) _).
    discriminate.
  - refine (proj2 (getInstanceUrl_sub_origin (fun s => Some s) (fun s => Some s)
             (fun _ => Some (VObj (obj_lit [("sub", VStr "https://login.salesforce.com/id/xyz")])))
             (VStr "h.p.s") VUndef
             (VObj (obj_lit [("sub", VStr "https://login.salesforce.com/id/xyz")]))
             "https://login.salesforce.com/id/xyz" "https://login.salesforce.com"
             eq_refl eq_refl eq_refl eq_refl eq_refl) _).
    reflexivity.
Defined.

(** A token "x.!!!.y": its payload "!!!" is not base64, so [atob] throws. *)
Lemma getInstanceUrl_malformed_token_witness :
  getInstanceUrl (fun _ => None) (fun _ => None) (fun _ => None)
    (VStr "x.!!!.y") VUndef
  = ([mk_log "Failed to decode Salesforce idToken" InvalidCharacterError],
     Throw (Error "Salesforce instance URL is required but not provided")).
Proof. apply getInstanceUrl_malformed_token; reflexivity. Defined.

(** C5 as stated fails: the error thrown for a malformed token has the
    message "Salesforce instance URL is required but not provided", not
    "instance URL required but not provided". *)
Lemma getInstanceUrl_malformed_token_message_cex :
  ~ (forall atob decodeURIComponent JSON_parse idToken,
       truthy idToken = true ->
       (exists e, decode_id_token atob decodeURIComponent JSON_parse idToken = Throw e) ->
       exists e,
         getInstanceUrl atob decodeURIComponent JSON_parse idToken VUndef
         = ([mk_log "Failed to decode Salesforce idToken" e],
            Throw (Error "instance URL required but not provided"))).
Proof.
  intros H.
  destruct (H (fun _ => None) (fun _ => None) (fun _ => None) (VStr "x.!!!.y")
              eq_refl (ex_intro _ InvalidCharacterError eq_refl)) as [e He].
  vm_compute in He. discriminate He.
Qed.

(** ** The [includeDetails] query parameter *)

Lemma string_app_assoc :
  forall a b c : string, (a ++ b) ++ c = a ++ (b ++ c).
Proof. induction a as [|x a IH]; intros b c; simpl; [reflexivity | now rewrite IH]. Qed.

Lemma string_app_nil_r : forall a : string, a ++ "" = a.
Proof. induction a as [|x a IH]; simpl; [reflexivity | now rewrite IH]. Qed.

Lemma srev_app : forall a b, srev (a ++ b) = srev b ++ srev a.
Proof.
  induction a as [|x a IH]; intros b; simpl.
  - now rewrite string_app_nil_r.
  - now rewrite IH, string_app_assoc.
Qed.

Lemma string_length_app :
  forall a b, String.length (a ++ b) = String.length a + String.length b.
Proof. induction a as [|x a IH]; intros b; simpl; [reflexivity | now rewrite IH]. Qed.

Lemma srev_length : forall a, String.length (srev a) = String.length a.
Proof.
  induction a as [|x a IH]; simpl; [reflexivity|].
  rewrite string_length_app, IH. simpl. lia.
Qed.

Lemma prefix_app_l :
  forall p a b, String.length p <= String.length a ->
    String.prefix p (a ++ b) = String.prefix p a.
Proof.
  induction p as [|x p IH]; intros a b Hlen; [destruct a; [destruct b|]; reflexivity|].
  destruct a as [|y a]; simpl in Hlen; [lia|].
  simpl. destruct (ascii_dec x y); [apply IH; lia | reflexivity].
Qed.

(** Only the last [length suffix] characters decide [ends_with]. *)
Lemma ends_with_app :
  forall suffix pre s, String.length suffix <= String.length s ->
    ends_with suffix (pre ++ s) = ends_with suffix s.
Proof.
  intros suffix pre s Hlen. unfold ends_with.
  rewrite srev_app. apply prefix_app_l. now rewrite !srev_length.
Qed.

Lemma include_details_false :
  forall params,
    include_details params = false <-> prop params "includeDetails" = VStr "false".
Proof.
  intros params. unfold include_details.
  destruct (prop params "includeDetails"); split; intros H; try discriminate.
  - apply negb_false_iff, String.eqb_eq in H. now subst.
  - injection H as ->. reflexivity.
Qed.

Lemma request_url_query :
  forall atob decodeURIComponent JSON_parse params logs url,
    (run_report_url atob decodeURIComponent JSON_parse params = (logs, Ok url)
     \/ run_report_async_url atob decodeURIComponent JSON_parse params = (logs, Ok url)) ->
    exists pre,
      url = pre ++ "?includeDetails=" ++ to_string (VBool (include_details params)).
Proof.
  intros atob decodeURIComponent JSON_parse params logs url H.
  destruct H as [H|H]; [unfold run_report_url in H | unfold run_report_async_url in H];
    destruct (getInstanceUrl _ _ _ _ _) as [logs0 [iu|e]];
    cbv beta iota delta [bind] in H; try discriminate; injection H as _ <-.
  - exists (to_string iu ++ "/services/data/v59.0/analytics/reports/"
            ++ to_string (prop params "reportId")).
    rewrite !string_app_assoc. reflexivity.
  - exists (to_string iu ++ "/services/data/v59.0/analytics/reports/"
            ++ to_string (prop params "reportId") ++ "/instances").
    rewrite !string_app_assoc. reflexivity.
Qed.

(** C10: in the URLs built by the run_report and run_report_async tools the
    query ends in [includeDetails=false] exactly when the [includeDetails]
    input is the string 'false', and in [includeDetails=true] for every other
    value (absent, 'true', 'False', '0', ...). *)
Theorem request_url_include_details :
  forall atob decodeURIComponent JSON_parse params logs url,
    (run_report_url atob decodeURIComponent JSON_parse params = (logs, Ok url)
     \/ run_report_async_url atob decodeURIComponent JSON_parse params = (logs, Ok url)) ->
    (ends_with "includeDetails=false" url = true
       <-> prop params "includeDetails" = VStr "false")
    /\ (ends_with "includeDetails=true" url = true
       <-> prop params "includeDetails" <> VStr "false").
Proof.
  intros atob decodeURIComponent JSON_parse params logs url H.
  destruct (request_url_query _ _ _ _ _ _ H) as [pre ->].
  rewrite <- include_details_false.
  destruct (include_details params);
    rewrite (ends_with_app "includeDetails=false"), (ends_with_app "includeDetails=true")
      by (simpl; lia);
    simpl; split; split; intros; try reflexivity; try discriminate; congruence.
Qed.

Lemma request_url_include_details_witness :
  run_report_url (fun _ => None) (fun _ => None) (fun _ => None)
    (obj_lit [("instanceUrl", VStr "https://acme.my.salesforce.com");
              ("reportId", VStr "00O1");
              ("includeDetails", VStr "False")])
  = ([], Ok "https://acme.my.salesforce.com/services/data/v59.0/analytics/reports/00O1?includeDetails=true")
  /\ ends_with "includeDetails=true"
       "https://acme.my.salesforce.com/services/data/v59.0/analytics/reports/00O1?includeDetails=true"
     = true.
Proof.
  split; [reflexivity|].
  apply (proj2 (request_url_include_details (fun _ => None) (fun _ => None) (fun _ => None)
    (obj_lit [("instanceUrl", VStr "https://acme.my.salesforce.com");
              ("reportId", VStr "00O1");
              ("includeDetails", VStr "False")]) []
    "https://acme.my.salesforce.com/services/data/v59.0/analytics/reports/00O1?includeDetails=true"
    (or_introl eq_refl))).
  discriminate.
Defined.

(** ** The tools' [transformResponse] *)

(** The [output] object of a success: the operation name sits in
    [metadata.operation], except for get_report_metadata, whose [metadata]
    is the response payload and whose operation name is in [operation]. *)
Lemma tool_output_shape :
  forall t data params,
    is_delete t = true \/ (data <> VNull /\ data <> VUndef) ->
    exists out,
      tool_output t data params = Ok (VObj out)
      /\ (t <> GetReportMetadata ->
          exists op, tool_id t = "salesforce_" ++ op
                     /\ prop out "metadata" = op_metadata op)
      /\ (t = GetReportMetadata ->
          prop out "metadata" = data
          /\ prop out "operation" = VStr "get_report_metadata").
Proof.
  intros t data params H.
  destruct t; destruct H as [Hd | [Hn Hu]]; try discriminate Hd;
    destruct data; try congruence;
    (eexists; split; [reflexivity|]);
    (split; [intros Hne; first [ exfalso; apply Hne; reflexivity
                               | eexists; split; reflexivity ]
            | intros Ht; try discriminate Ht; split; reflexivity]).
Qed.

Lemma get_prop_opt_message :
  forall x, get_prop_opt x "message" = Ok (message_field x).
Proof. intros []; reflexivity. Qed.

Lemma get_prop_message :
  forall x, x <> VNull -> x <> VUndef -> get_prop x "message" = Ok (message_field x).
Proof. intros [] Hn Hu; try congruence; reflexivity. Qed.

Lemma get_prop_first :
  forall x, x <> VNull -> x <> VUndef -> get_prop x "0" = Ok (first_element x).
Proof.
  intros [| | | |s|l| |] Hn Hu; try congruence; try reflexivity.
  - destruct s; reflexivity.
  - destruct l; reflexivity.
Qed.

(** The code's [data[0]?.message || data.message || fallback] follows the
    spec's priority order on every body other than [null]. *)
Lemma error_message_priority :
  forall data fallback, data <> VNull -> data <> VUndef ->
    error_message data fallback = spec_error_message data fallback.
Proof.
  intros data fallback Hn Hu. unfold error_message, spec_error_message.
  rewrite get_prop_first by assumption. simpl.
  rewrite get_prop_opt_message. simpl.
  destruct (truthy (message_field (first_element data))); [reflexivity|].
  rewrite get_prop_message by assumption. simpl.
  destruct (truthy (message_field data)); reflexivity.
Qed.

(** C1 (as corrected): for every report and dashboard tool, a 2xx response
    whose body the tool can read (any body for the delete tools, a JSON
    value other than [null] for the others) is transformed into
    [{success: true, output}]; [output.metadata] is [{operation: op}] where
    the tool's id is ["salesforce_" ++ op], except for get_report_metadata,
    whose [output.metadata] is the response payload and whose
    [output.operation] is 'get_report_metadata'. *)
Theorem transformResponse_success_envelope :
  forall t resp params,
    ok resp = true ->
    success_body_ok t resp ->
    exists out,
      transformResponse t resp params = Ok (envelope (VObj out))
      /\ (t <> GetReportMetadata ->
          exists op, tool_id t = "salesforce_" ++ op
                     /\ prop out "metadata" = op_metadata op)
      /\ (t = GetReportMetadata ->
          forall v, json_body resp = Some v ->
            prop out "metadata" = v
            /\ prop out "operation" = VStr "get_report_metadata").
Proof.
  intros t [okb body] params Hok Hbody. simpl in Hok. subst okb.
  unfold transformResponse. simpl.
  destruct (is_delete t) eqn:Hdel.
  - destruct (tool_output_shape t VUndef params (or_introl Hdel))
      as [out [Hout [Hmeta Hgrm]]].
    rewrite Hout. exists out. split; [reflexivity|]. split; [exact Hmeta|].
    intros ->. discriminate Hdel.
  - destruct Hbody as [Hd | [v [Hv [Hn Hu]]]]; [congruence|]. simpl in Hv. subst body.
    destruct (tool_output_shape t v params (or_intror (conj Hn Hu)))
      as [out [Hout [Hmeta Hgrm]]].
    rewrite Hout. exists out. split; [reflexivity|]. split; [exact Hmeta|].
    intros Ht v' Hv'. injection Hv' as <-. exact (Hgrm Ht).
Qed.

Lemma transformResponse_success_envelope_witness :
  transformResponse RunReport
    (mk_response true (Some (VObj (obj_lit [("factMap", VObj obj_empty)]))))
    (obj_lit [("reportId", VStr "00O1")])
  = Ok (envelope (VObj (obj_lit
      [("reportId", VStr "00O1");
       ("reportData", VObj (obj_lit [("factMap", VObj obj_empty)]));
       ("metadata", op_metadata "run_report");
       ("success", VBool true)]))).
Proof.
  assert (Hb : success_body_ok RunReport
            (mk_response true (Some (VObj (obj_lit [("factMap", VObj obj_empty)]))))).
  { right. eexists. split; [reflexivity|]. split; discriminate. }
  destruct (transformResponse_success_envelope RunReport
              (mk_response true (Some (VObj (obj_lit [("factMap", VObj obj_empty)]))))
              (obj_lit [("reportId", VStr "00O1")]) eq_refl Hb)
    as [out [Hout _]].
  rewrite Hout. vm_compute in Hout. injection Hout as <-. reflexivity.
Defined.

(** C1 as stated fails: on a 2xx response, get_report_metadata's
    [output.metadata] is the response payload, not
    [{operation: 'get_report_metadata'}]. *)
Lemma transformResponse_get_report_metadata_cex :
  exists out,
    transformResponse GetReportMetadata (mk_response true (Some (VObj obj_empty)))
      obj_empty = Ok (envelope (VObj out))
    /\ prop out "metadata" <> op_metadata "get_report_metadata".
Proof.
  eexists. split; [reflexivity|].
  intros H. vm_compute in H. discriminate H.
Qed.

(** C8 (as corrected): for every report and dashboard tool,
    - on a non-2xx response whose body reads as a value other than [null]
      (a body that is not JSON reads as [{}] for the delete tools), the tool
      throws [new Error(m)], where [m] is, in priority order,
      [body[0].message] if truthy, [body.message] if truthy, the tool's fixed
      fallback; the error's message is [String(m)], and where that
      conversion throws (an object whose own [toString] is not a function)
      its error is thrown instead;
    - a non-delete tool whose response body is not JSON throws the JSON
      parse error, on a 2xx response as on any other;
    - on a 2xx response it does not throw, provided the body is readable
      (any body for the delete tools, a JSON value other than [null] for the
      others). *)
Theorem transformResponse_errors :
  forall t resp params,
    (ok resp = false ->
     forall data, error_body t resp = Some data -> data <> VNull -> data <> VUndef ->
       transformResponse t resp params
       = match spec_error_message data (fallback_message t) with
         | Ok m => Throw (Error m)
         | Throw e => Throw e
         end)
    /\ (is_delete t = false -> json_body resp = None ->
        transformResponse t resp params = Throw SyntaxError)
    /\ (ok resp = true -> success_body_ok t resp ->
        exists r, transformResponse t resp params = Ok r).
Proof.
  intros t [okb body] params. unfold transformResponse, error_body. simpl.
  split; [|split].
  - intros -> data Hdata Hn Hu.
    destruct (is_delete t); [injection Hdata as <- | subst body];
      rewrite error_message_priority by assumption;
      destruct (spec_error_message _ _); reflexivity.
  - intros -> ->. reflexivity.
  - intros -> Hbody. destruct (is_delete t) eqn:Hdel.
    + destruct (tool_output_shape t VUndef params (or_introl Hdel)) as [out [Hout _]].
      rewrite Hout. eexists. reflexivity.
    + destruct Hbody as [Hd | [v [Hv [Hn Hu]]]]; [congruence|]. simpl in Hv. subst body.
      destruct (tool_output_shape t v params (or_intror (conj Hn Hu))) as [out [Hout _]].
      rewrite Hout. eexists. reflexivity.
Qed.

(** A 401 with the Salesforce error array; a delete whose error body is not
    JSON; error messages that are a large number and an object with an own
    [toString]; a 2xx response whose body is not JSON. *)
Lemma transformResponse_errors_witness :
  transformResponse ListReports
    (mk_response false (Some (VArr [VObj (obj_lit [("message", VStr "Session expired")])])))
    obj_empty
  = Throw (Error "Session expired")
  /\ transformResponse DeleteReport (mk_response false None) obj_empty
     = Throw (Error "Failed to delete report")
  /\ transformResponse GetDashboard
       (mk_response false (Some (VObj (obj_lit [("message", VNum (10 ^ 21)%Z)])))) obj_empty
     = Throw (Error "1e+21")
  /\ transformResponse GetDashboard
       (mk_response false (Some (VArr [VObj (obj_lit
          [("message", VObj (obj_lit [("toString", VNum 1%Z)]))])]))) obj_empty
     = Throw TypeError
  /\ transformResponse RunReport (mk_response true None) obj_empty = Throw SyntaxError.
Proof.
  split; [|split; [|split; [|split]]].
  - rewrite (proj1 (transformResponse_errors ListReports
      (mk_response false (Some (VArr [VObj (obj_lit [("message", VStr "Session expired")])])))
      obj_empty) eq_refl (VArr [VObj (obj_lit [("message", VStr "Session expired")])]));
      [vm_compute; reflexivity | reflexivity | discriminate | discriminate].
  - rewrite (proj1 (transformResponse_errors DeleteReport (mk_response false None) obj_empty)
      eq_refl (VObj obj_empty)); [vm_compute; reflexivity | reflexivity
                                  | discriminate | discriminate].
  - rewrite (proj1 (transformResponse_errors GetDashboard
      (mk_response false (Some (VObj (obj_lit [("message", VNum (10 ^ 21)%Z)])))) obj_empty)
      eq_refl (VObj (obj_lit [("message", VNum (10 ^ 21)%Z)])));
      [vm_compute; reflexivity | reflexivity | discriminate | discriminate].
  - rewrite (proj1 (transformResponse_errors GetDashboard
      (mk_response false (Some (VArr [VObj (obj_lit
          [("message", VObj (obj_lit [("toString", VNum 1%Z)]))])]))) obj_empty)
      eq_refl (VArr [VObj (obj_lit [("message", VObj (obj_lit [("toString", VNum 1%Z)]))])]));
      [vm_compute; reflexivity | reflexivity | discriminate | discriminate].
  - exact (proj1 (proj2 (transformResponse_errors RunReport (mk_response true None) obj_empty))
             eq_refl eq_refl).
Defined.

(** C8 as stated fails: a 2xx response whose body is not JSON makes
    list_reports throw. *)
Lemma transformResponse_ok_throws_cex :
  exists e,
    transformResponse ListReports (mk_response true None) obj_empty = Throw e.
Proof. exists SyntaxError. reflexivity. Qed.

(** ** The parameter cleaner *)

Open Scope list_scope.

Lemma fold_left_ext_pointwise :
  forall {A B} (f g : A -> B -> A) l a,
    (forall x y, f x y = g x y) -> fold_left f l a = fold_left g l a.
Proof.
  intros A B f g l. induction l as [|y l IH]; intros a Hfg; simpl; [reflexivity|].
  rewrite Hfg. apply IH, Hfg.
Qed.

Lemma idx_insert_last :
  forall k v l, Forall (fun a => idx_lt a (k, v)) l -> idx_insert k v l = l ++ [(k, v)].
Proof.
  intros k v l. induction l as [|[k' w] l IH]; intros H; simpl; [reflexivity|].
  inversion H as [|? ? Hlt Hrest]; subst. unfold idx_lt in Hlt. simpl in Hlt.
  destruct (String.eqb k k') eqn:E.
  - apply String.eqb_eq in E. subst. lia.
  - destruct (key_index k <? key_index k')%N eqn:E2.
    + apply N.ltb_lt in E2. lia.
    + rewrite IH by assumption. reflexivity.
Qed.

Lemma sorted_app_before :
  forall l1 x l2, StronglySorted idx_lt (l1 ++ x :: l2) -> Forall (fun a => idx_lt a x) l1.
Proof.
  induction l1 as [|a l1 IH]; intros x l2 H; [constructor|].
  simpl in H. apply StronglySorted_inv in H as [Hs Hf].
  constructor.
  - rewrite Forall_forall in Hf. apply Hf, in_or_app. right. left. reflexivity.
  - eapply IH. exact Hs.
Qed.

Lemma sorted_app_remove :
  forall l1 x l2, StronglySorted idx_lt (l1 ++ x :: l2) -> StronglySorted idx_lt (l1 ++ l2).
Proof.
  induction l1 as [|a l1 IH]; intros x l2 H; simpl in *.
  - apply StronglySorted_inv in H. tauto.
  - apply StronglySorted_inv in H as [Hs Hf]. constructor; [eapply IH; exact Hs|].
    rewrite Forall_forall in *. intros y Hy. apply Hf.
    apply in_app_or in Hy as [Hy|Hy]; apply in_or_app; [left|right; right]; exact Hy.
Qed.

Lemma Forall_filter_keep :
  forall {A} (P : A -> Prop) f l, Forall P l -> Forall P (filter f l).
Proof.
  intros A P f l H. rewrite Forall_forall in *. intros x Hx.
  apply filter_In in Hx. apply H, Hx.
Qed.

Lemma sorted_filter :
  forall f l, StronglySorted idx_lt l -> StronglySorted idx_lt (filter f l).
Proof.
  intros f l. induction l as [|a l IH]; intros H; simpl; [constructor|].
  apply StronglySorted_inv in H as [Hs Hf].
  destruct (f a); [constructor; [apply IH, Hs | apply Forall_filter_keep, Hf] | apply IH, Hs].
Qed.

Lemma NoDup_map_filter :
  forall {A B} (g : A -> B) f l, NoDup (map g l) -> NoDup (map g (filter f l)).
Proof.
  intros A B g f l. induction l as [|a l IH]; intros H; simpl; [constructor|].
  inversion H as [|? ? Hnin Hnd]; subst.
  destruct (f a); simpl; [constructor|]; try apply IH, Hnd.
  intros Hin. apply Hnin. apply in_map_iff in Hin as [y [Hy Hin]].
  apply filter_In in Hin as [Hin _]. rewrite <- Hy. apply in_map, Hin.
Qed.

Lemma filter_filter_andb :
  forall {A} (f g : A -> bool) l, filter f (filter g l) = filter (fun x => g x && f x) l.
Proof.
  intros A f g l. induction l as [|a l IH]; simpl; [reflexivity|].
  destruct (g a); simpl; [destruct (f a); simpl|]; rewrite IH; reflexivity.
Qed.

Lemma str_set_absent :
  forall k (v : value) l, ~ In k (map fst l) -> str_set k v l = l ++ [(k, v)].
Proof.
  intros k v l. induction l as [|[k' w] l IH]; intros H; simpl; [reflexivity|].
  destruct (String.eqb k k') eqn:E.
  - apply String.eqb_eq in E. subst. exfalso. apply H. left. reflexivity.
  - rewrite IH; [reflexivity|]. intros Hin. apply H. right. exact Hin.
Qed.

(** Setting array-index entries given in increasing order, each above the
    indices already present, appends them. *)
Lemma fold_set_idx :
  forall p I acc,
    Forall (fun kv => is_index (fst kv) = true) I ->
    StronglySorted idx_lt (idx_props acc ++ I) ->
    fold_left (set_if p) I acc = mk_jsobj (idx_props acc ++ filter p I) (str_props acc).
Proof.
  intros p I. induction I as [|[k v] I IH]; intros [ia sa] Hidx Hs; simpl in *.
  - rewrite app_nil_r. reflexivity.
  - inversion Hidx as [|? ? Hk HI]; subst. simpl in Hk.
    unfold set_if at 2. simpl. destruct (p (k, v)).
    + unfold obj_set. rewrite Hk. simpl.
      rewrite idx_insert_last by (eapply sorted_app_before; exact Hs).
      rewrite IH; [simpl; now rewrite <- app_assoc | exact HI |].
      simpl. now rewrite <- app_assoc.
    + rewrite IH; [reflexivity | exact HI |]. simpl. eapply sorted_app_remove. exact Hs.
Qed.

(** Setting fresh non-index keys appends them. *)
Lemma fold_set_str :
  forall p S acc,
    Forall (fun kv => is_index (fst kv) = false) S ->
    NoDup (map fst (str_props acc ++ S)) ->
    fold_left (set_if p) S acc = mk_jsobj (idx_props acc) (str_props acc ++ filter p S).
Proof.
  intros p S. induction S as [|[k v] S IH]; intros [ia sa] Hstr Hnd; simpl in *.
  - rewrite app_nil_r. reflexivity.
  - inversion Hstr as [|? ? Hk HS]; subst. simpl in Hk.
    rewrite map_app in Hnd. simpl in Hnd.
    unfold set_if at 2. simpl. destruct (p (k, v)).
    + unfold obj_set. rewrite Hk. simpl.
      rewrite str_set_absent.
      * rewrite IH; [simpl; now rewrite <- app_assoc | exact HS |].
        simpl. rewrite <- app_assoc, map_app. exact Hnd.
      * intros Hin. apply (NoDup_remove_2 _ _ _ Hnd). apply in_or_app. now left.
    + rewrite IH; [reflexivity | exact HS |]. simpl. rewrite map_app.
      exact (NoDup_remove_1 _ _ _ Hnd).
Qed.

Lemma object_rest_shape :
  forall o excluded, wf_obj o ->
    object_rest o excluded =
    mk_jsobj (filter (not_excluded excluded) (idx_props o))
             (filter (not_excluded excluded) (str_props o)).
Proof.
  intros o excluded [Hik Hsort Hsk Hnd].
  unfold object_rest.
  rewrite (fold_left_ext_pointwise _ (set_if (not_excluded excluded))).
  2:{ intros acc [k v]. unfold set_if, not_excluded. simpl.
      destruct (existsb (String.eqb k) excluded); reflexivity. }
  unfold obj_entries. rewrite fold_left_app.
  rewrite (fold_set_idx _ (idx_props o)) by (simpl; assumption). simpl.
  rewrite fold_set_str by (simpl; assumption). reflexivity.
Qed.

Lemma not_excluded_kept :
  forall kv, not_excluded ["credential"; "operation"] kv && keep_value (snd kv)
             = kept_entry kv.
Proof.
  intros [k v]. unfold not_excluded, kept_entry. simpl.
  destruct (String.eqb k "credential"), (String.eqb k "operation"); reflexivity.
Qed.

Lemma kept_entry_not_credential :
  forall kv, kept_entry kv = true -> fst kv <> "credential".
Proof.
  intros [k v] H E. simpl in E. subst. discriminate H.
Qed.

Lemma credential_not_kept :
  forall l, ~ In "credential" (map fst (filter kept_entry l)).
Proof.
  intros l Hin. apply in_map_iff in Hin as [kv [Hk Hin]].
  apply filter_In in Hin as [_ Hkv]. exact (kept_entry_not_credential kv Hkv Hk).
Qed.

(** The cleaner's result: kept index entries, then [credential], then the
    kept non-index entries, each group in the input's order. *)
Lemma sanitize_shape :
  forall params, wf_obj params ->
    sanitizeParams params =
    mk_jsobj (filter kept_entry (idx_props params))
             (("credential", prop params "credential")
                :: filter kept_entry (str_props params)).
Proof.
  intros params Hwf. unfold sanitizeParams.
  rewrite (object_rest_shape _ _ Hwf).
  destruct Hwf as [Hik Hsort Hsk Hnd].
  rewrite (fold_left_ext_pointwise _ (set_if (fun kv => keep_value (snd kv)))).
  2:{ intros acc [k v]. reflexivity. }
  set (c := prop params "credential").
  change (obj_lit [("credential", c)]) with (mk_jsobj (A := value) [] [("credential", c)]).
  unfold obj_entries. simpl. rewrite fold_left_app.
  rewrite (fold_set_idx _ (filter _ (idx_props params))).
  2:{ apply Forall_filter_keep, Hik. }
  2:{ apply sorted_filter, Hsort. }
  simpl. rewrite fold_set_str.
  2:{ apply Forall_filter_keep, Hsk. }
  2:{ simpl. constructor.
      - intros Hin. apply in_map_iff in Hin as [[k v] [Hk Hin]]. simpl in Hk. subst k.
        apply filter_In in Hin as [_ Hne]. discriminate Hne.
      - apply NoDup_map_filter, Hnd. }
  simpl. rewrite !filter_filter_andb.
  rewrite (filter_ext _ kept_entry not_excluded_kept).
  rewrite (filter_ext _ kept_entry not_excluded_kept).
  reflexivity.
Qed.

Lemma filter_kept_idem :
  forall l, filter kept_entry (filter kept_entry l) = filter kept_entry l.
Proof.
  intros l. rewrite filter_filter_andb. apply filter_ext. intros kv. apply andb_diag.
Qed.

Lemma sanitize_wf :
  forall params, wf_obj params -> wf_obj (sanitizeParams params).
Proof.
  intros params Hwf. rewrite (sanitize_shape _ Hwf).
  destruct Hwf as [Hik Hsort Hsk Hnd]. split; simpl.
  - apply Forall_filter_keep, Hik.
  - apply sorted_filter, Hsort.
  - constructor; [reflexivity | apply Forall_filter_keep, Hsk].
  - constructor; [apply credential_not_kept | apply NoDup_map_filter, Hnd].
Qed.

(** The bag of the spec's example. *)
Definition example_bag : jsobj value :=
  obj_lit [("credential", VStr "c1"); ("operation", VStr "get_accounts");
           ("accountId", VStr ""); ("limit", VStr "50")].





(** C9. [sanitizeParams] is idempotent on well-formed bags: cleaning a
    cleaned bag gives the same object, keys, values and order. *)
Theorem sanitizeParams_idempotent :
  forall params, wf_obj params ->
    sanitizeParams (sanitizeParams params) = sanitizeParams params.
Proof.
  intros params Hwf.
  rewrite (sanitize_shape _ (sanitize_wf _ Hwf)).
  rewrite (sanitize_shape _ Hwf). simpl.
  unfold prop at 1. unfold obj_get. simpl.
  rewrite !filter_kept_idem. reflexivity.
Qed.

Lemma sanitizeParams_idempotent_witness :
  wf_obj example_bag /\
  sanitizeParams (sanitizeParams example_bag) = sanitizeParams example_bag.
Proof.
  assert (Hwf : wf_obj example_bag).
  { vm_compute. split; simpl.
    - constructor.
    - constructor.
    - repeat constructor.
    - repeat (constructor; [simpl; intuition discriminate|]). constructor. }
  split; [exact Hwf | apply (sanitizeParams_idempotent example_bag Hwf)].
Defined.

(** ** Reading the cleaned bag *)

Lemma assoc_absent :
  forall {A} k (l : list (string * A)), ~ In k (map fst l) -> assoc k l = None.
Proof.
  intros A k l. induction l as [|[k' w] l IH]; intros H; simpl; [reflexivity|].
  destruct (String.eqb k k') eqn:E.
  - apply String.eqb_eq in E. subst. exfalso. apply H. left. reflexivity.
  - apply IH. intros Hin. apply H. right. exact Hin.
Qed.

Lemma assoc_filter :
  forall {A} f k (l : list (string * A)), NoDup (map fst l) ->
    assoc k (filter f l) =
    match assoc k l with
    | Some v => if f (k, v) then Some v else None
    | None => None
    end.
Proof.
  intros A f k l. induction l as [|[k' w] l IH]; intros Hnd; simpl; [reflexivity|].
  inversion Hnd as [|? ? Hnin Hnd']; subst.
  destruct (String.eqb k k') eqn:E.
  - apply String.eqb_eq in E. subst k'.
    destruct (f (k, w)); simpl; [rewrite String.eqb_refl; reflexivity|].
    rewrite IH by exact Hnd'. rewrite assoc_absent by exact Hnin. reflexivity.
  - destruct (f (k', w)); simpl; [rewrite E|]; apply IH, Hnd'.
Qed.

Lemma sorted_idx_nodup :
  forall l, StronglySorted idx_lt l -> NoDup (map fst l).
Proof.
  induction l as [|a l IH]; intros H; simpl; [constructor|].
  apply StronglySorted_inv in H as [Hs Hf]. constructor; [|apply IH, Hs].
  intros Hin. apply in_map_iff in Hin as [b [Hb Hin]].
  rewrite Forall_forall in Hf. specialize (Hf b Hin). unfold idx_lt in Hf.
  rewrite Hb in Hf. lia.
Qed.

Lemma index_not_credential :
  forall k, is_index k = true -> String.eqb k "credential" = false /\ String.eqb k "operation" = false.
Proof.
  intros k H. split; destruct (String.eqb k _) eqn:E; try reflexivity;
    apply String.eqb_eq in E; subst; discriminate H.
Qed.

Lemma kept_entry_pair :
  forall k v, String.eqb k "credential" = false -> String.eqb k "operation" = false ->
    kept_entry (k, v) = keep_value v.
Proof. intros k v H1 H2. unfold kept_entry. simpl. rewrite H1, H2. reflexivity. Qed.

Lemma lookup_kept :
  forall k (l : list (string * value)),
    NoDup (map fst l) ->
    String.eqb k "credential" = false -> String.eqb k "operation" = false ->
    match assoc k (filter kept_entry l) with Some v => v | None => VUndef end =
    (let v := match assoc k l with Some v => v | None => VUndef end in
     if keep_value v then v else VUndef).
Proof.
  intros k l Hnd H1 H2. rewrite assoc_filter by exact Hnd.
  destruct (assoc k l) as [v|]; simpl; [|reflexivity].
  rewrite kept_entry_pair by assumption. destruct (keep_value v); reflexivity.
Qed.

(** Values the cleaner drops are falsy. *)
Lemma dropped_falsy :
  forall v, keep_value v = false -> truthy v = false.
Proof.
  intros [| |b|z|s|l|o|f] H; try reflexivity; try discriminate H.
  simpl in *. exact H.
Qed.

Lemma dropped_include_details :
  forall v, keep_value v = false ->
    match v with VStr s => negb (String.eqb s "false") | _ => true end = true.
Proof.
  intros [| | | |s| | |] H; try reflexivity; try discriminate H.
  simpl in H. apply negb_false_iff, String.eqb_eq in H. subst. reflexivity.
Qed.

(** Reading key [k] of the cleaned bag: [credential] is the input's
    credential, [operation] is absent, any other key reads as in the input
    when its value is kept and as [undefined] otherwise. *)
Theorem sanitizeParams_prop :
  forall params k, wf_obj params ->
    prop (sanitizeParams params) k =
    if String.eqb k "credential" then prop params "credential"
    else if String.eqb k "operation" then VUndef
    else if keep_value (prop params k) then prop params k else VUndef.
Proof.
  intros params k Hwf. pose proof Hwf as [Hik Hsort Hsk Hnd].
  rewrite (sanitize_shape _ Hwf). unfold prop at 1, obj_get. cbn [idx_props str_props].
  destruct (is_index k) eqn:Hk.
  - destruct (index_not_credential k Hk) as [H1 H2]. rewrite H1, H2.
    rewrite (lookup_kept k _ (sorted_idx_nodup _ Hsort) H1 H2).
    unfold prop, obj_get. rewrite Hk. reflexivity.
  - cbn [assoc]. destruct (String.eqb k "credential") eqn:H1; [reflexivity|].
    destruct (String.eqb k "operation") eqn:H2.
    + apply String.eqb_eq in H2. subst k. rewrite assoc_absent; [reflexivity|].
      intros Hin. apply in_map_iff in Hin as [[k' v] [Hk' Hin]].
      apply filter_In in Hin as [_ Hkept]. simpl in Hk'. subst k'.
      unfold kept_entry in Hkept. simpl in Hkept. discriminate Hkept.
    + rewrite (lookup_kept k _ Hnd H1 H2). unfold prop, obj_get. rewrite Hk. reflexivity.
Qed.

Lemma sanitizeParams_prop_witness :
  wf_obj example_bag /\
  prop (sanitizeParams example_bag) "accountId" = VUndef.
Proof.
  assert (Hwf : wf_obj example_bag).
  { vm_compute. split; simpl.
    - constructor.
    - constructor.
    - repeat constructor.
    - repeat (constructor; [simpl; intuition discriminate|]). constructor. }
  split; [exact Hwf|].
  rewrite (sanitizeParams_prop example_bag "accountId" Hwf). vm_compute. reflexivity.
Defined.

Lemma sanitized_other_key :
  forall params k, wf_obj params ->
    String.eqb k "credential" = false -> String.eqb k "operation" = false ->
    prop (sanitizeParams params) k =
    if keep_value (prop params k) then prop params k else VUndef.
Proof.
  intros params k Hwf H1 H2. rewrite (sanitizeParams_prop params k Hwf), H1, H2.
  reflexivity.
Qed.

(** The cleaner never changes whether [run_report] and [run_report_async]
    ask for details. *)
Theorem include_details_sanitized :
  forall params, wf_obj params ->
    include_details (sanitizeParams params) = include_details params.
Proof.
  intros params Hwf. unfold include_details.
  rewrite (sanitized_other_key params "includeDetails" Hwf eq_refl eq_refl).
  destruct (keep_value (prop params "includeDetails")) eqn:Hk; [reflexivity|].
  rewrite (dropped_include_details _ Hk). reflexivity.
Qed.

Lemma include_details_sanitized_witness :
  wf_obj (obj_lit [("credential", VStr "c"); ("includeDetails", VStr "")]) /\
  include_details (sanitizeParams (obj_lit [("credential", VStr "c"); ("includeDetails", VStr "")]))
  = include_details (obj_lit [("credential", VStr "c"); ("includeDetails", VStr "")]).
Proof.
  assert (Hwf : wf_obj (obj_lit [("credential", VStr "c"); ("includeDetails", VStr "")])).
  { vm_compute. split; simpl.
    - constructor.
    - constructor.
    - repeat constructor.
    - repeat (constructor; [simpl; intuition discriminate|]). constructor. }
  split; [exact Hwf | apply (include_details_sanitized _ Hwf)].
Defined.

(** The cleaner never changes how the instance URL resolves: same result,
    same log. *)
Theorem getInstanceUrl_sanitized :
  forall atob decodeURIComponent JSON_parse params, wf_obj params ->
    getInstanceUrl atob decodeURIComponent JSON_parse
      (prop (sanitizeParams params) "idToken") (prop (sanitizeParams params) "instanceUrl")
    = getInstanceUrl atob decodeURIComponent JSON_parse
        (prop params "idToken") (prop params "instanceUrl").
Proof.
  intros atob dec jp params Hwf.
  rewrite (sanitized_other_key params "idToken" Hwf eq_refl eq_refl).
  rewrite (sanitized_other_key params "instanceUrl" Hwf eq_refl eq_refl).
  unfold getInstanceUrl.
  destruct (keep_value (prop params "instanceUrl")) eqn:Hu;
    [|rewrite (dropped_falsy _ Hu); simpl].
  - destruct (truthy (prop params "instanceUrl")); [reflexivity|].
    destruct (keep_value (prop params "idToken")) eqn:Ht; [reflexivity|].
    rewrite (dropped_falsy _ Ht). reflexivity.
  - destruct (keep_value (prop params "idToken")) eqn:Ht; [reflexivity|].
    rewrite (dropped_falsy _ Ht). reflexivity.
Qed.

(** ** What the instance resolver can return *)

Open Scope string_scope.

Lemma take_non_slash_idem :
  forall s, take_non_slash (take_non_slash s) = take_non_slash s.
Proof.
  induction s as [|c s IH]; simpl; [reflexivity|].
  destruct (Ascii.eqb c "/"%char) eqn:E; simpl; [reflexivity|].
  rewrite E, IH. reflexivity.
Qed.

Lemma match_origin_shape :
  forall s o, match_origin s = Some o ->
    exists host, o = "https://" ++ host /\ host <> "" /\ take_non_slash host = host.
Proof.
  intros s o. unfold match_origin.
  destruct (strip_prefix "https://" s) as [rest|]; [|discriminate].
  destruct (take_non_slash rest) as [|c h] eqn:E; [discriminate|].
  intros H. injection H as <-. exists (String c h).
  split; [reflexivity|]. split; [discriminate|].
  rewrite <- E. apply take_non_slash_idem.
Qed.

Lemma origin_from_token_match :
  forall atob decodeURIComponent JSON_parse tok o,
    origin_from_token atob decodeURIComponent JSON_parse tok = Ok (Some o) ->
    exists s, match_origin s = Some o.
Proof.
  intros atob dec jp tok o. unfold origin_from_token.
  destruct (decode_id_token atob dec jp tok) as [dv|e]; simpl; [|discriminate].
  destruct (get_prop dv "profile") as [pv|e]; simpl; [|discriminate].
  destruct (truthy pv).
  - destruct pv; simpl; try discriminate. intros H. injection H as H. eauto.
  - destruct (get_prop dv "sub") as [sv|e]; simpl; [|discriminate].
    destruct (truthy sv); [|discriminate].
    destruct sv; simpl; try discriminate.
    destruct (match_origin s) as [o'|] eqn:E; [|discriminate].
    destruct (String.eqb o' login_host); [discriminate|].
    intros H. injection H as <-. eauto.
Qed.

(** Without an explicit instance URL, whatever the resolver returns from a
    token is an https origin: "https://" followed by a non-empty host that
    contains no slash. *)
Theorem getInstanceUrl_token_origin_shape :
  forall atob decodeURIComponent JSON_parse idToken instanceUrl u,
    truthy instanceUrl = false ->
    snd (getInstanceUrl atob decodeURIComponent JSON_parse idToken instanceUrl) = Ok u ->
    exists host, u = VStr ("https://" ++ host) /\ host <> "" /\ take_non_slash host = host.
Proof.
  intros atob dec jp idToken iu u Hiu. unfold getInstanceUrl. rewrite Hiu.
  destruct (truthy idToken); simpl; [|discriminate].
  destruct (origin_from_token atob dec jp idToken) as [[o|]|e] eqn:E; simpl;
    try discriminate.
  intros H. injection H as <-.
  destruct (origin_from_token_match _ _ _ _ _ E) as [s Hs].
  destruct (match_origin_shape _ _ Hs) as [h [-> Hh]].
  exists h. split; [reflexivity | exact Hh].
Qed.

Lemma getInstanceUrl_token_origin_shape_witness :
  exists host,
    VStr "https://acme.my.salesforce.com" = VStr ("https://" ++ host)
    /\ host <> "" /\ take_non_slash host = host.
Proof.
  refine (getInstanceUrl_token_origin_shape (fun s => Some s) (fun s => Some s)
            (fun _ => Some (VObj (obj_lit [("profile", VStr "https://acme.my.salesforce.com/id/1")])))
            (VStr "h.p.s") VUndef (VStr "https://acme.my.salesforce.com") eq_refl _).
  reflexivity.
Defined.

(** The resolver's only error is [missing_instance_url]: a decoding error
    never escapes. It logs at most once, and only when it throws, with the
    message "Failed to decode Salesforce idToken". *)
Theorem getInstanceUrl_errors_and_log :
  forall atob decodeURIComponent JSON_parse idToken instanceUrl,
    let r := getInstanceUrl atob decodeURIComponent JSON_parse idToken instanceUrl in
    (forall e, snd r = Throw e -> e = missing_instance_url)
    /\ length (fst r) <= 1
    /\ (forall l, In l (fst r) ->
          log_message l = "Failed to decode Salesforce idToken"
          /\ snd r = Throw missing_instance_url).
Proof.
  intros atob dec jp idToken iu r. subst r. unfold getInstanceUrl.
  destruct (truthy iu); [|destruct (truthy idToken);
    [destruct (origin_from_token atob dec jp idToken) as [[o|]|e]|]];
    simpl; (split; [intros e' H; try discriminate H; injection H as <-; reflexivity|]);
    (split; [lia|]); intros l Hl; try contradiction.
  destruct Hl as [<-|[]]. split; reflexivity.
Qed.

(** A truthy [profile] that yields no origin ends the search: the payload's
    [sub] is never read, and the resolver throws. A string without an https
    origin throws silently; any other truthy value ([profile.match] is not a
    function) is logged as a decoding failure. *)
Theorem getInstanceUrl_profile_shadows_sub :
  forall atob decodeURIComponent JSON_parse idToken instanceUrl decoded profile,
    truthy instanceUrl = false ->
    decode_id_token atob decodeURIComponent JSON_parse idToken = Ok decoded ->
    get_prop decoded "profile" = Ok profile ->
    truthy profile = true ->
    (forall s, profile = VStr s -> match_origin s = None) ->
    getInstanceUrl atob decodeURIComponent JSON_parse idToken instanceUrl =
    (match profile with
     | VStr _ => []
     | _ => [mk_log "Failed to decode Salesforce idToken" TypeError]
     end, Throw missing_instance_url).
Proof.
  intros atob dec jp idToken iu dv pv Hiu Hdec Hp Ht Hm.
  unfold getInstanceUrl. rewrite Hiu.
  rewrite (decode_id_token_truthy atob dec jp idToken dv Hdec).
  unfold origin_from_token. rewrite Hdec. simpl. rewrite Hp. simpl. rewrite Ht.
  destruct pv; try discriminate Ht; simpl; try reflexivity.
  rewrite (Hm s eq_refl). reflexivity.
Qed.

Lemma getInstanceUrl_profile_shadows_sub_witness :
  getInstanceUrl (fun s => Some s) (fun s => Some s)
    (fun _ => Some (VObj (obj_lit [("profile", VStr "http://acme.example/id/1");
                                   ("sub", VStr "https://acme.my.salesforce.com/id/1")])))
    (VStr "h.p.s") VUndef
  = ([], Throw missing_instance_url).
Proof.
  apply (getInstanceUrl_profile_shadows_sub (fun s => Some s) (fun s => Some s)
    (fun _ => Some (VObj (obj_lit [("profile", VStr "http://acme.example/id/1");
                                   ("sub", VStr "https://acme.my.salesforce.com/id/1")])))
    (VStr "h.p.s") VUndef
    (VObj (obj_lit [("profile", VStr "http://acme.example/id/1");
                    ("sub", VStr "https://acme.my.salesforce.com/id/1")]))
    (VStr "http://acme.example/id/1")); try reflexivity.
  intros s H. injection H as <-. reflexivity.
Defined.

(** ** The requests the tools build *)

(** Every tool's URL is the resolved instance URL followed by
    "/services/data/v59.0/analytics/reports" or ".../dashboards": the URL
    builder logs exactly what the resolver logs and fails exactly when it
    fails, with its error. *)
Theorem request_url_shape :
  forall atob decodeURIComponent JSON_parse t params logs r,
    getInstanceUrl atob decodeURIComponent JSON_parse
      (prop params "idToken") (prop params "instanceUrl") = (logs, r) ->
    fst (request_url atob decodeURIComponent JSON_parse t params) = logs
    /\ (forall e, r = Throw e ->
          snd (request_url atob decodeURIComponent JSON_parse t params) = Throw e)
    /\ (forall u, r = Ok u ->
          exists rest,
            snd (request_url atob decodeURIComponent JSON_parse t params)
            = Ok (to_string u ++ "/services/data/v59.0/analytics/" ++ api_area t ++ rest)).
Proof.
  intros atob dec jp t params logs r H. unfold request_url. rewrite H. simpl.
  split; [reflexivity|]. split; intros x ->; simpl; [reflexivity|].
  destruct t; eexists; reflexivity.
Qed.

Lemma request_url_shape_witness :
  exists rest,
    snd (request_url (fun _ => None) (fun _ => None) (fun _ => None) GetDashboard
           (obj_lit [("instanceUrl", VStr "https://acme.my.salesforce.com");
                     ("dashboardId", VStr "01Z1")]))
    = Ok (to_string (VStr "https://acme.my.salesforce.com")
          ++ "/services/data/v59.0/analytics/" ++ api_area GetDashboard ++ rest).
Proof.
  refine (proj2 (proj2 (request_url_shape (fun _ => None) (fun _ => None) (fun _ => None)
    GetDashboard
    (obj_lit [("instanceUrl", VStr "https://acme.my.salesforce.com");
              ("dashboardId", VStr "01Z1")])
    [] (Ok (VStr "https://acme.my.salesforce.com")) _)) _ eq_refl).
  reflexivity.
Defined.

(** Three pairs or triples of tools call the same endpoint and differ only
    by method: update_report (PATCH), run_report_with_filters (POST) and
    delete_report (DELETE); get_report_instance (GET) and
    delete_report_instance (DELETE); refresh_dashboard (GET) and
    delete_dashboard (DELETE). *)
Theorem request_url_shared_endpoints :
  forall atob decodeURIComponent JSON_parse params,
    let url t := request_url atob decodeURIComponent JSON_parse t params in
    url UpdateReport = url DeleteReport
    /\ url RunReportWithFilters = url DeleteReport
    /\ url GetReportInstance = url DeleteReportInstance
    /\ url RefreshDashboard = url DeleteDashboard
    /\ map request_method [UpdateReport; RunReportWithFilters; DeleteReport;
                           GetReportInstance; DeleteReportInstance;
                           RefreshDashboard; DeleteDashboard]
       = ["PATCH"; "POST"; "DELETE"; "GET"; "DELETE"; "GET"; "DELETE"].
Proof. intros. repeat split; reflexivity. Qed.

(** No tool checks that the report id is there: when [params.reportId] is
    absent, every tool that takes a report id still builds its URL, with the
    path segment "reports/undefined". *)
Theorem request_url_missing_report_id :
  forall atob decodeURIComponent JSON_parse t params logs u,
    In "reportId" (user_params t) ->
    prop params "reportId" = VUndef ->
    getInstanceUrl atob decodeURIComponent JSON_parse
      (prop params "idToken") (prop params "instanceUrl") = (logs, Ok u) ->
    exists rest,
      request_url atob decodeURIComponent JSON_parse t params
      = (logs, Ok (to_string u ++ "/services/data/v59.0/analytics/reports/undefined" ++ rest)).
Proof.
  intros atob dec jp t params logs u Hin Hr Hg. unfold request_url. rewrite Hg.
  destruct t; vm_compute in Hin; try (exfalso; intuition discriminate);
    unfold url_path; cbv beta zeta; rewrite Hr; eexists; reflexivity.
Qed.

Lemma request_url_missing_report_id_witness :
  exists rest,
    request_url (fun _ => None) (fun _ => None) (fun _ => None) GetReportMetadata
      (obj_lit [("instanceUrl", VStr "https://acme.my.salesforce.com")])
    = ([], Ok (to_string (VStr "https://acme.my.salesforce.com")
               ++ "/services/data/v59.0/analytics/reports/undefined" ++ rest)).
Proof.
  apply (request_url_missing_report_id (fun _ => None) (fun _ => None) (fun _ => None)
    GetReportMetadata (obj_lit [("instanceUrl", VStr "https://acme.my.salesforce.com")]));
    vm_compute; auto.
Defined.

(** The headers: always [Authorization: Bearer <accessToken>] (so
    "Bearer undefined" without a token), then [Content-Type:
    application/json] for every tool except the three whose method is
    DELETE. *)
Theorem request_headers_by_method :
  forall t params,
    obj_entries (request_headers t params) =
    ("Authorization", VStr ("Bearer " ++ to_string (prop params "accessToken")))
      :: (if String.eqb (request_method t) "DELETE" then []
          else [("Content-Type", VStr "application/json")]).
Proof. intros t params. destruct t; reflexivity. Qed.

(** create_report's and update_report's body: text that is not JSON, and
    JSON [null], give the error "Invalid JSON in reportMetadata parameter";
    a parsed value is sent as is when its [reportMetadata] is truthy, and
    wrapped as [{reportMetadata: value}] otherwise. *)
Theorem request_body_report_metadata :
  forall JSON_parse t params,
    t = CreateReport \/ t = UpdateReport ->
    let text := to_string (prop params "reportMetadata") in
    (JSON_parse text = None ->
       request_body JSON_parse t params = Some (Throw invalid_report_metadata))
    /\ (JSON_parse text = Some VNull ->
          request_body JSON_parse t params = Some (Throw invalid_report_metadata))
    /\ (forall v inner,
          JSON_parse text = Some v -> get_prop v "reportMetadata" = Ok inner ->
          request_body JSON_parse t params
          = Some (Ok (if truthy inner then v
                      else VObj (obj_lit [("reportMetadata", v)])))).
Proof.
  intros jp t params Ht text.
  assert (Hb : request_body jp t params =
               Some (catch_invalid (let* parsed := parse_report_metadata jp params in
                                    wrap_report_metadata parsed)))
    by (destruct Ht as [-> | ->]; reflexivity).
  rewrite Hb. unfold parse_report_metadata. fold text.
  split; [intros H; rewrite H; reflexivity|].
  split; [intros H; rewrite H; reflexivity|].
  intros v inner H Hg. rewrite H. simpl. unfold wrap_report_metadata. rewrite Hg. simpl.
  destruct (truthy inner); reflexivity.
Qed.

Lemma request_body_report_metadata_witness :
  request_body (fun s => if String.eqb s "{}" then Some (VObj obj_empty) else None)
    CreateReport (obj_lit [("reportMetadata", VStr "{}")])
  = Some (Ok (VObj (obj_lit [("reportMetadata", VObj obj_empty)]))).
Proof.
  apply (proj2 (proj2 (request_body_report_metadata
    (fun s => if String.eqb s "{}" then Some (VObj obj_empty) else None)
    CreateReport (obj_lit [("reportMetadata", VStr "{}")]) (or_introl eq_refl)))
    (VObj obj_empty) VUndef); reflexivity.
Defined.

(** run_report_with_filters sends whatever [JSON.parse] returns, [null]
    included, and fails only on text that is not JSON; on the same text
    [null], create_report and update_report fail. *)
Theorem request_body_filters_vs_create :
  forall JSON_parse params,
    let text := to_string (prop params "reportMetadata") in
    (forall v, JSON_parse text = Some v ->
       request_body JSON_parse RunReportWithFilters params = Some (Ok v))
    /\ (JSON_parse text = None ->
          request_body JSON_parse RunReportWithFilters params
          = Some (Throw invalid_report_metadata))
    /\ (JSON_parse text = Some VNull ->
          request_body JSON_parse RunReportWithFilters params = Some (Ok VNull)
          /\ request_body JSON_parse CreateReport params = Some (Throw invalid_report_metadata)
          /\ request_body JSON_parse UpdateReport params = Some (Throw invalid_report_metadata)).
Proof.
  intros jp params text. unfold request_body, parse_report_metadata. fold text.
  split; [intros v H; rewrite H; reflexivity|].
  split; [intros H; rewrite H; reflexivity|].
  intros H. rewrite H. repeat split; reflexivity.
Qed.

Lemma request_body_filters_vs_create_witness :
  request_body (fun _ => Some VNull) RunReportWithFilters
    (obj_lit [("reportMetadata", VStr "null")]) = Some (Ok VNull)
  /\ request_body (fun _ => Some VNull) CreateReport
       (obj_lit [("reportMetadata", VStr "null")]) = Some (Throw invalid_report_metadata)
  /\ request_body (fun _ => Some VNull) UpdateReport
       (obj_lit [("reportMetadata", VStr "null")]) = Some (Throw invalid_report_metadata).
Proof.
  apply (proj2 (proj2 (request_body_filters_vs_create (fun _ => Some VNull)
    (obj_lit [("reportMetadata", VStr "null")])))). reflexivity.
Defined.

(** Wrapping is idempotent on what it returns when the parsed value is
    truthy or already carries a truthy [reportMetadata]: wrapping the result
    again changes nothing. *)
Theorem wrap_report_metadata_idempotent :
  forall v r,
    wrap_report_metadata v = Ok r ->
    (truthy v = true \/ exists inner, get_prop v "reportMetadata" = Ok inner /\ truthy inner = true) ->
    wrap_report_metadata r = Ok r.
Proof.
  intros v r. unfold wrap_report_metadata at 1.
  destruct (get_prop v "reportMetadata") as [inner|e] eqn:Hg; simpl; [|discriminate].
  destruct (truthy inner) eqn:Ht; intros H; injection H as <-; intros Hc.
  - unfold wrap_report_metadata. rewrite Hg. simpl. rewrite Ht. reflexivity.
  - destruct Hc as [Hv | [i [Hi Hti]]].
    + unfold wrap_report_metadata.
      change (get_prop (VObj (obj_lit [("reportMetadata", v)])) "reportMetadata")
        with (Ok v : except value).
      simpl. rewrite Hv. reflexivity.
    + injection Hi as <-. congruence.
Qed.

Lemma wrap_report_metadata_idempotent_witness :
  wrap_report_metadata (VObj (obj_lit [("reportMetadata", VObj (obj_lit [("name", VStr "r")]))]))
  = Ok (VObj (obj_lit [("reportMetadata", VObj (obj_lit [("name", VStr "r")]))])).
Proof.
  apply (wrap_report_metadata_idempotent
    (VObj (obj_lit [("reportMetadata", VObj (obj_lit [("name", VStr "r")]))]))); [reflexivity|].
  left. reflexivity.
Defined.

(** A falsy parsed value other than [null] ([false], [0], [""]) is wrapped
    into [{reportMetadata: value}], whose [reportMetadata] is falsy again:
    wrapping it once more nests it a second time. *)
Theorem wrap_report_metadata_nests_falsy :
  forall v, v <> VNull -> v <> VUndef -> truthy v = false ->
    wrap_report_metadata v = Ok (VObj (obj_lit [("reportMetadata", v)]))
    /\ wrap_report_metadata (VObj (obj_lit [("reportMetadata", v)]))
       = Ok (VObj (obj_lit [("reportMetadata", VObj (obj_lit [("reportMetadata", v)]))])).
Proof.
  intros v Hn Hu Hf.
  assert (Hg : get_prop v "reportMetadata" = Ok VUndef).
  { destruct v; try congruence; try discriminate Hf; reflexivity. }
  unfold wrap_report_metadata. rewrite Hg.
  change (get_prop (VObj (obj_lit [("reportMetadata", v)])) "reportMetadata")
    with (Ok v : except value).
  simpl. rewrite Hf. split; reflexivity.
Qed.

Lemma wrap_report_metadata_nests_falsy_witness :
  wrap_report_metadata (VObj (obj_lit [("reportMetadata", VNum 0)]))
  = Ok (VObj (obj_lit [("reportMetadata", VObj (obj_lit [("reportMetadata", VNum 0)]))])).
Proof.
  apply (proj2 (wrap_report_metadata_nests_falsy (VNum 0) ltac:(discriminate)
    ltac:(discriminate) eq_refl)).
Defined.

(** ** The block and the tools it reaches *)

Lemma strip_prefix_app :
  forall p s, strip_prefix p (p ++ s) = Some s.
Proof.
  induction p as [|c p IH]; intros s; simpl; [reflexivity|].
  rewrite Ascii.eqb_refl. apply IH.
Qed.

Lemma In_existsb :
  forall x l, existsb (String.eqb x) l = true -> In x l.
Proof.
  intros x l. induction l as [|y l IH]; simpl; [discriminate|].
  intros H. apply orb_true_iff in H as [H|H]; [left | right; apply IH, H].
  symmetry. apply String.eqb_eq, H.
Qed.

(** Every report and dashboard tool is reachable from the block: its id is
    in [tools.access], and it is "salesforce_" followed by a dropdown option
    that the operation switch maps to that id. *)
Theorem report_tools_dispatch :
  forall t,
    In (tool_id t) tools_access
    /\ exists op, In op operation_options
                  /\ tool_id t = "salesforce_" ++ op
                  /\ switch_operation (VStr op) = Ok (tool_id t).
Proof.
  intros t. split; [apply In_existsb; destruct t; reflexivity|].
  exists (match strip_prefix "salesforce_" (tool_id t) with Some s => s | None => "" end).
  destruct t; (split; [apply In_existsb; reflexivity | split; reflexivity]).
Qed.

(** For each report and dashboard operation, the fields the block shows
    (besides [operation] and [credential]) are exactly the tool's
    user-visible parameters. *)
Theorem block_fields_match_tool_params :
  forall t op, tool_id t = "salesforce_" ++ op ->
    forall x, In x (block_fields op) <-> In x (user_params t).
Proof.
  intros t op H.
  assert (Hop : strip_prefix "salesforce_" (tool_id t) = Some op)
    by (rewrite H; apply strip_prefix_app).
  destruct t; vm_compute in Hop; injection Hop as <-; intros x; vm_compute; tauto.
Qed.

Lemma block_fields_match_tool_params_witness :
  In "name" (block_fields "clone_dashboard") <-> In "name" (user_params CloneDashboard).
Proof. apply (block_fields_match_tool_params CloneDashboard "clone_dashboard" eq_refl). Defined.

(** The [required] marks agree for every report and dashboard operation
    except clone_dashboard: the tool requires [name], which the block shows
    without marking it required. *)
Theorem block_required_fields_vs_tool :
  forall t op, tool_id t = "salesforce_" ++ op ->
    (t <> CloneDashboard ->
       forall x, In x (block_required_fields op) <-> In x (required_user_params t))
    /\ (t = CloneDashboard ->
          block_required_fields op = ["dashboardId"]
          /\ required_user_params t = ["dashboardId"; "name"]).
Proof.
  intros t op H.
  assert (Hop : strip_prefix "salesforce_" (tool_id t) = Some op)
    by (rewrite H; apply strip_prefix_app).
  destruct t; vm_compute in Hop; injection Hop as <-;
    (split; [intros Hne x; try (exfalso; apply Hne; reflexivity); vm_compute; tauto
            | intros Ht; try discriminate Ht; split; reflexivity]).
Qed.

Lemma block_required_fields_vs_tool_witness :
  block_required_fields "clone_dashboard" = ["dashboardId"]
  /\ required_user_params CloneDashboard = ["dashboardId"; "name"].
Proof.
  apply (proj2 (block_required_fields_vs_tool CloneDashboard "clone_dashboard" eq_refl)).
  reflexivity.
Defined.

(** ** What [transformResponse] reads and returns *)

Lemma tool_output_ids :
  forall t data p1 p2,
    (forall k, In k ["reportId"; "instanceId"; "dashboardId"; "componentId"; "name"] ->
               prop p1 k = prop p2 k) ->
    tool_output t data p1 = tool_output t data p2.
Proof.
  intros t data p1 p2 H.
  pose proof (H "reportId" ltac:(simpl; tauto)) as E1.
  pose proof (H "instanceId" ltac:(simpl; tauto)) as E2.
  pose proof (H "dashboardId" ltac:(simpl; tauto)) as E3.
  pose proof (H "componentId" ltac:(simpl; tauto)) as E4.
  pose proof (H "name" ltac:(simpl; tauto)) as E5.
  destruct t; unfold tool_output; cbv beta zeta;
    rewrite ?E1, ?E2, ?E3, ?E4, ?E5; reflexivity.
Qed.

(** The result of [transformResponse] depends on the parameters only
    through [reportId], [instanceId], [dashboardId], [componentId] and
    [name]: the access token, the identity token, the instance URL and the
    other inputs never reach the output or the error. *)
Theorem transformResponse_params_ids_only :
  forall t resp p1 p2,
    (forall k, In k ["reportId"; "instanceId"; "dashboardId"; "componentId"; "name"] ->
               prop p1 k = prop p2 k) ->
    transformResponse t resp p1 = transformResponse t resp p2.
Proof.
  intros t resp p1 p2 H. unfold transformResponse.
  destruct (is_delete t); [rewrite (tool_output_ids t VUndef p1 p2 H); reflexivity|].
  destruct (json_body resp) as [d|]; [rewrite (tool_output_ids t d p1 p2 H)|]; reflexivity.
Qed.

Lemma transformResponse_params_ids_only_witness :
  transformResponse RunReport (mk_response true (Some (VObj obj_empty)))
    (obj_lit [("reportId", VStr "00O1"); ("accessToken", VStr "secret")])
  = transformResponse RunReport (mk_response true (Some (VObj obj_empty)))
      (obj_lit [("reportId", VStr "00O1")]).
Proof.
  apply transformResponse_params_ids_only. intros k Hk.
  simpl in Hk. intuition subst; reflexivity.
Defined.

Lemma envelope_inj :
  forall a b, envelope a = envelope b -> a = b.
Proof. intros a b H. unfold envelope in H. simpl in H. injection H. auto. Qed.

Lemma tool_output_flags :
  forall t data params out,
    tool_output t data params = Ok (VObj out) ->
    prop out "success" = (if is_delete t then VUndef else VBool true)
    /\ (is_delete t = true -> prop out "deleted" = VBool true).
Proof.
  intros t data params out. destruct t; unfold tool_output; cbv beta zeta;
    repeat (let E := fresh "Eg" in
            match goal with
            | |- context [bind (get_prop ?d ?k) _] =>
                destruct (get_prop d k) eqn:E; simpl; [|discriminate]
            end);
    intros Hout; injection Hout as <-; split; try reflexivity; discriminate.
Qed.

(** On a 2xx response, [output.success] is [true] for every tool except the
    three delete tools, whose output has no [success] field but has
    [deleted: true]; a delete tool's success result does not depend on the
    response body at all. *)
Theorem transformResponse_success_flag :
  forall t resp params out,
    ok resp = true ->
    transformResponse t resp params = Ok (envelope (VObj out)) ->
    prop out "success" = (if is_delete t then VUndef else VBool true)
    /\ (is_delete t = true ->
          prop out "deleted" = VBool true
          /\ forall body, transformResponse t (mk_response true body) params
                          = Ok (envelope (VObj out))).
Proof.
  intros t [okb body] params out Hok. simpl in Hok. subst okb.
  unfold transformResponse. cbn [ok json_body].
  destruct (is_delete t) eqn:Hd.
  - destruct (tool_output t VUndef params) as [v|e] eqn:E; simpl; [|discriminate].
    intros H. injection H as H. try apply envelope_inj in H. subst v.
    destruct (tool_output_flags t VUndef params out E) as [Hs Hdel].
    rewrite Hd in Hs. split; [exact Hs|]. intros _. split; [exact (Hdel Hd)|].
    intros b. reflexivity.
  - destruct body as [d|]; [|discriminate].
    destruct (tool_output t d params) as [v|e] eqn:E; simpl; [|discriminate].
    intros H. injection H as H. try apply envelope_inj in H. subst v.
    destruct (tool_output_flags t d params out E) as [Hs _].
    rewrite Hd in Hs. split; [exact Hs | discriminate].
Qed.

Lemma transformResponse_success_flag_witness :
  prop (obj_lit [("reportId", VUndef); ("deleted", VBool true);
                 ("metadata", op_metadata "delete_report")]) "success" = VUndef.
Proof.
  apply (proj1 (transformResponse_success_flag DeleteReport (mk_response true None) obj_empty
    (obj_lit [("reportId", VUndef); ("deleted", VBool true);
              ("metadata", op_metadata "delete_report")]) eq_refl eq_refl)).
Defined.

Lemma getInstanceUrl_sanitized_witness :
  wf_obj (obj_lit [("credential", VStr "c"); ("instanceUrl", VStr "")]) /\
  getInstanceUrl (fun _ => None) (fun _ => None) (fun _ => None)
    (prop (sanitizeParams (obj_lit [("credential", VStr "c"); ("instanceUrl", VStr "")])) "idToken")
    (prop (sanitizeParams (obj_lit [("credential", VStr "c"); ("instanceUrl", VStr "")])) "instanceUrl")
  = getInstanceUrl (fun _ => None) (fun _ => None) (fun _ => None)
      (prop (obj_lit [("credential", VStr "c"); ("instanceUrl", VStr "")]) "idToken")
      (prop (obj_lit [("credential", VStr "c"); ("instanceUrl", VStr "")]) "instanceUrl").
Proof.
  assert (Hwf : wf_obj (obj_lit [("credential", VStr "c"); ("instanceUrl", VStr "")])).
  { vm_compute. split; simpl.
    - constructor.
    - constructor.
    - repeat constructor.
    - repeat (constructor; [simpl; intuition discriminate|]). constructor. }
  split; [exact Hwf|].
  apply (getInstanceUrl_sanitized (fun _ => None) (fun _ => None) (fun _ => None) _ Hwf).
Defined.

Lemma getInstanceUrl_errors_and_log_witness :
  length (fst (getInstanceUrl (fun _ => None) (fun _ => None) (fun _ => None)
                 (VStr "x.!!!.y") VUndef)) <= 1.
Proof.
  apply (proj1 (proj2 (getInstanceUrl_errors_and_log (fun _ => None) (fun _ => None)
    (fun _ => None) (VStr "x.!!!.y") VUndef))).
Defined.
